(** * Verification of [scripts/download_datasets.py]

    A shallow embedding of the dataset download script
    ([DatasetDownloader] and the [__main__] block) and the properties of
    its specification.

    The script is sequential I/O orchestration, so the embedding is a
    state-and-exception monad over an explicit world: a filesystem
    (finite map from paths to nodes), the interpreter's module table and
    the trace of observable events (prints, network, subprocess and hub
    calls, method entries and exits).  Everything the script cannot decide
    on its own (what a URL serves, what an archive contains, whether an
    import or an installer succeeds) comes from an environment record. *)

From Stdlib Require Import ZArith List String Ascii Bool Lia.
From Stdlib.Strings Require Import Byte.
From stdpp Require Import base option list gmap strings.
From Equations Require Import Equations.
From Equations.Prop Require Import Logic.

Local Open Scope string_scope.
Local Open Scope list_scope.
Local Open Scope Z_scope.

(** * SHA-256 ([hashlib.sha256]) *)

(** The script hashes through [hashlib]: an object created by
    [hashlib.sha256()], fed with [update(chunk)] and read with
    [hexdigest()].  The object is modelled with the state a streaming
    implementation keeps (chaining value, pending bytes, byte count),
    following FIPS 180-4 on 32-bit words represented in [Z]. *)
Module SHA256.

Definition wrap (x : Z) : Z := x mod 2 ^ 32.
Definition rotr (n x : Z) : Z :=
  Z.lor (Z.shiftr x n) (wrap (Z.shiftl x (32 - n))).
Definition shr (n x : Z) : Z := Z.shiftr x n.

Definition Ch (x y z : Z) : Z :=
  Z.lxor (Z.land x y) (Z.land (wrap (Z.lnot x)) z).
Definition Maj (x y z : Z) : Z :=
  Z.lxor (Z.lxor (Z.land x y) (Z.land x z)) (Z.land y z).
Definition bsig0 (x : Z) : Z := Z.lxor (Z.lxor (rotr 2 x) (rotr 13 x)) (rotr 22 x).
Definition bsig1 (x : Z) : Z := Z.lxor (Z.lxor (rotr 6 x) (rotr 11 x)) (rotr 25 x).
Definition ssig0 (x : Z) : Z := Z.lxor (Z.lxor (rotr 7 x) (rotr 18 x)) (shr 3 x).
Definition ssig1 (x : Z) : Z := Z.lxor (Z.lxor (rotr 17 x) (rotr 19 x)) (shr 10 x).

(** Hexadecimal text, used for the constant tables and for digests. *)
Definition hex_value (c : ascii) : option Z :=
  let n := Z.of_nat (nat_of_ascii c) in
  if (48 <=? n) && (n <=? 57) then Some (n - 48)
  else if (97 <=? n) && (n <=? 102) then Some (n - 87)
  else None.

Fixpoint hex_words_go (s : string) (cur : option Z) : list Z :=
  match s with
  | EmptyString => match cur with Some w => [w] | None => [] end
  | String c rest =>
      match hex_value c with
      | Some d => hex_words_go rest (Some (16 * default 0 cur + d))
      | None => match cur with
                | Some w => w :: hex_words_go rest None
                | None => hex_words_go rest None
                end
      end
  end.
Definition hex_words (s : string) : list Z := hex_words_go s None.

Definition K : list Z := hex_words
  "428a2f98 71374491 b5c0fbcf e9b5dba5 3956c25b 59f111f1 923f82a4 ab1c5ed5
   d807aa98 12835b01 243185be 550c7dc3 72be5d74 80deb1fe 9bdc06a7 c19bf174
   e49b69c1 efbe4786 0fc19dc6 240ca1cc 2de92c6f 4a7484aa 5cb0a9dc 76f988da
   983e5152 a831c66d b00327c8 bf597fc7 c6e00bf3 d5a79147 06ca6351 14292967
   27b70a85 2e1b2138 4d2c6dfc 53380d13 650a7354 766a0abb 81c2c92e 92722c85
   a2bfe8a1 a81a664b c24b8b70 c76c51a3 d192e819 d6990624 f40e3585 106aa070
   19a4c116 1e376c08 2748774c 34b0bcb5 391c0cb3 4ed8aa4a 5b9cca4f 682e6ff3
   748f82ee 78a5636f 84c87814 8cc70208 90befffa a4506ceb bef9a3f7 c67178f2".

Definition IV : list Z := hex_words
  "6a09e667 bb67ae85 3c6ef372 a54ff53a 510e527f 9b05688c 1f83d9ab 5be0cd19".

Definition byte_val (b : byte) : Z := Z.of_N (Byte.to_N b).
Definition byte_of_Z (z : Z) : byte :=
  default x00 (Byte.of_N (Z.to_N (z mod 256))).

(** Big-endian packing of bytes into 32-bit words and back. *)
Fixpoint words_of_bytes (bs : list byte) : list Z :=
  match bs with
  | b0 :: b1 :: b2 :: b3 :: rest =>
      (((byte_val b0 * 256 + byte_val b1) * 256 + byte_val b2) * 256 + byte_val b3)
        :: words_of_bytes rest
  | _ => []
  end.
Definition bytes_of_word (w : Z) : list byte :=
  [byte_of_Z (Z.shiftr w 24); byte_of_Z (Z.shiftr w 16);
   byte_of_Z (Z.shiftr w 8); byte_of_Z w].

(** Message schedule: [win] holds the sixteen most recent words. *)
Fixpoint schedule (n : nat) (win : list Z) : list Z :=
  match n with
  | O => []
  | S k =>
      match win with
      | [] => []
      | w0 :: rest =>
          let w16 := wrap (ssig1 (nth 14 win 0) + nth 9 win 0
                           + ssig0 (nth 1 win 0) + w0) in
          w0 :: schedule k (rest ++ [w16])
      end
  end.

Record regs := Regs { ra : Z; rb : Z; rc : Z; rd : Z; re : Z; rf : Z; rg : Z; rh : Z }.

Definition round (r : regs) (kw : Z * Z) : regs :=
  let t1 := wrap (rh r + bsig1 (re r) + Ch (re r) (rf r) (rg r) + fst kw + snd kw) in
  let t2 := wrap (bsig0 (ra r) + Maj (ra r) (rb r) (rc r)) in
  Regs (wrap (t1 + t2)) (ra r) (rb r) (rc r) (wrap (rd r + t1)) (re r) (rf r) (rg r).

Definition regs_of (H : list Z) : regs :=
  Regs (nth 0 H 0) (nth 1 H 0) (nth 2 H 0) (nth 3 H 0)
       (nth 4 H 0) (nth 5 H 0) (nth 6 H 0) (nth 7 H 0).

(** One application of the compression function to a 64-byte block. *)
Definition compress (H : list Z) (block : list byte) : list Z :=
  let r0 := regs_of H in
  let r := fold_left round (combine K (schedule 64 (words_of_bytes block))) r0 in
  [wrap (ra r0 + ra r); wrap (rb r0 + rb r); wrap (rc r0 + rc r); wrap (rd r0 + rd r);
   wrap (re r0 + re r); wrap (rf r0 + rf r); wrap (rg r0 + rg r); wrap (rh r0 + rh r)].

(** [absorb n H data] compresses the first [n] blocks of [data] and
    returns the new chaining value with the bytes left over. *)
Fixpoint absorb (n : nat) (H : list Z) (data : list byte) : list Z * list byte :=
  match n with
  | O => (H, data)
  | S k => absorb k (compress H (firstn 64 data)) (skipn 64 data)
  end.

Record state := State { chain : list Z; pending : list byte; count : nat }.

(** [hashlib.sha256()] *)
Definition init : state := State IV [] 0%nat.

(** [h.update(data)] *)
Definition update (st : state) (data : list byte) : state :=
  let all := pending st ++ data in
  let '(H, rest) := absorb (length all / 64)%nat (chain st) all in
  State H rest (count st + length data)%nat.

Definition be64 (z : Z) : list byte :=
  bytes_of_word (Z.shiftr z 32) ++ bytes_of_word z.

Definition padding (total : nat) : list byte :=
  x80 :: repeat x00 (Z.to_nat ((55 - Z.of_nat total) mod 64))
      ++ be64 (8 * Z.of_nat total).

(** [h.digest()] *)
Definition digest (st : state) : list byte :=
  let tail := pending st ++ padding (count st) in
  concat (map bytes_of_word (fst (absorb (length tail / 64)%nat (chain st) tail))).

Definition hex_digit (z : Z) : ascii :=
  ascii_of_nat (Z.to_nat (if z <? 10 then 48 + z else 87 + z)).

Fixpoint hex_of_bytes (bs : list byte) : string :=
  match bs with
  | [] => EmptyString
  | b :: rest =>
      String (hex_digit (byte_val b / 16))
        (String (hex_digit (byte_val b mod 16)) (hex_of_bytes rest))
  end.

(** [h.hexdigest()] *)
Definition hexdigest (st : state) : string := hex_of_bytes (digest st).

(** The invariant of a hash object: eight chaining words and less than
    a block of pending bytes. *)
Definition wf (st : state) : Prop :=
  length (chain st) = 8%nat /\ (length (pending st) < 64)%nat.

(** The digest of a whole message, [hashlib.sha256(msg).hexdigest()]. *)
Definition sha256_hex (msg : list byte) : string := hexdigest (update init msg).

End SHA256.

Definition bytes_of_string (s : string) : list byte := list_byte_of_string s.

#[global] Instance byte_eq_dec : EqDecision byte := Byte.byte_eq_dec.

(** * Python values the script handles *)

(** ** Exceptions *)

(** The classes the handlers of the script tell apart.  [KeyboardInterrupt]
    derives from [BaseException] only; every other class below derives
    from [Exception].  [OtherError] stands for any further subclass of
    [Exception] a library may raise. *)
Inductive exn_class :=
| KeyboardInterrupt
| ImportError
| ValueError
| FileNotFoundError
| FileExistsError
| IsADirectoryError
| NotADirectoryError
| URLError
| CalledProcessError
| BadZipFile
| ReadError
| OtherError.

Record exn := Exn { exn_cls : exn_class; exn_msg : string }.

(** [except Exception] *)
Definition is_Exception (e : exn) : bool :=
  match exn_cls e with KeyboardInterrupt => false | _ => true end.

(** [except ImportError] *)
Definition is_ImportError (e : exn) : bool :=
  match exn_cls e with ImportError => true | _ => false end.

(** [except KeyboardInterrupt] *)
Definition is_KeyboardInterrupt (e : exn) : bool :=
  match exn_cls e with KeyboardInterrupt => true | _ => false end.

(** ** Strings and paths *)

Definition nl : string := String (ascii_of_nat 10) EmptyString.

(** [str.lower()] on ASCII letters (other characters are kept). *)
Definition lower_ascii (c : ascii) : ascii :=
  let n := nat_of_ascii c in
  if ((65 <=? n) && (n <=? 90))%nat then ascii_of_nat (n + 32) else c.

Fixpoint lower (s : string) : string :=
  match s with
  | EmptyString => EmptyString
  | String c rest => String (lower_ascii c) (lower rest)
  end.

(** [s.rfind('.')]: index of the last dot, if any; [i] is the index of
    the first character of [s]. *)
Fixpoint rfind_dot (s : string) (i : nat) : option nat :=
  match s with
  | EmptyString => None
  | String c rest =>
      match rfind_dot rest (S i) with
      | Some j => Some j
      | None => if Ascii.eqb c "."%char then Some i else None
      end
  end.

(** A path is the list of its components below the filesystem root. *)
Abbreviation path := (list string).

(** [p / name] *)
Definition pjoin (p : path) (name : string) : path := p ++ [name].
(** [p.parent] *)
Definition parent (p : path) : path := removelast p.
(** [p.name] *)
Definition name (p : path) : string := List.last p "".

(** [p.suffix]: [name[i:]] for [i = name.rfind('.')] when
    [0 < i < len(name) - 1], and the empty string otherwise. *)
Definition suffix (p : path) : string :=
  let n := name p in
  match rfind_dot n 0 with
  | Some i =>
      if ((0 <? i) && (S i <? String.length n))%nat
      then substring i (String.length n - i) n
      else ""
  | None => ""
  end.

(** [str(p)] *)
Definition str (p : path) : string := "/" +:+ String.concat "/" p.

(** * The world *)

Inductive node :=
| Dir
| File (data : list byte).

(** The three [import kagglehub] statements of the script. *)
Inductive import_site :=
| ImportProbe        (* install_kagglehub, first try block *)
| ImportAfterPip     (* install_kagglehub, after the pip fallback *)
| ImportInDownload.  (* download_lisa *)

Inductive event :=
| EPrint (s : string)
| ECall (f : string)
| ERet (f : string)
| ENet (url : string)
| EProc (argv : list string)
| EHub (id : string)
| EImport (site : import_site).

Record World := mkWorld {
  fs : gmap path node;      (* the filesystem *)
  kagglehub_loaded : bool;  (* kagglehub is in sys.modules *)
  trace : list event        (* events so far, oldest first *)
}.

(** What [urllib.request.urlretrieve] meets: the request fails, or a body
    arrives, fully or cut short. *)
Inductive http_response :=
| HttpFail (e : exn)
| HttpBody (data : list byte) (cut : option exn).

(** Everything outside the script.  An archive library is two functions:
    [zip_members] / [tar_members] is what opening the archive finds
    ([None]: the file cannot be opened as such an archive), and
    [zip_extract] / [tar_extract] is what [extractall] does with these
    members for a destination on a filesystem: the filesystem it leaves,
    and the exception it raises if it does not complete (what it wrote
    until then stays). *)
Record Env := mkEnv {
  script_file : path;                                   (* __file__ *)
  sys_executable : string;
  urlopen : string -> http_response;
  zip_members : list byte -> option (list (path * node));
  tar_members : list byte -> option (list (path * node));
  import_outcome : import_site -> option exn;
  check_call_outcome :
    list string -> gmap path node -> option exn * gmap path node;
  dataset_download_outcome :
    string -> gmap path node -> (exn + path) * gmap path node;
  zip_extract :
    list (path * node) -> path -> gmap path node -> option exn * gmap path node;
  tar_extract :
    list (path * node) -> path -> gmap path node -> option exn * gmap path node
}.

(** * The monad: state and exceptions *)

Inductive result (A : Type) :=
| Ok (a : A)
| Raise (e : exn).
Arguments Ok {A} a.
Arguments Raise {A} e.

Definition M (A : Type) : Type := World -> result A * World.

Definition ret {A} (a : A) : M A := fun w => (Ok a, w).
Definition raise {A} (e : exn) : M A := fun w => (Raise e, w).
Definition bind {A B} (m : M A) (k : A -> M B) : M B :=
  fun w => match m w with
           | (Ok a, w') => k a w'
           | (Raise e, w') => (Raise e, w')
           end.

Notation "'let*' x := m 'in' k" := (bind m (fun x => k))
  (at level 10, x name, m at level 100, k at level 200).
Notation "m >> k" := (bind m (fun _ => k))
  (at level 90, right associativity).

(** [try: body except <catches> as e: handler e] *)
Definition try_except {A} (body : M A) (catches : exn -> bool)
    (handler : exn -> M A) : M A :=
  fun w => match body w with
           | (Ok a, w') => (Ok a, w')
           | (Raise e, w') =>
               if catches e then handler e w' else (Raise e, w')
           end.

(** The world after the events [es]. *)
Definition log (w : World) (es : list event) : World :=
  mkWorld (fs w) (kagglehub_loaded w) (trace w ++ es).

Definition emit (e : event) : M unit := fun w => (Ok tt, log w [e]).

Definition print (s : string) : M unit := emit (EPrint s).

(** A method body, with its entry and its normal exit on the trace. *)
Definition method {A} (f : string) (body : M A) : M A :=
  emit (ECall f) >> let* r := body in emit (ERet f) >> ret r.

Definition get_fs : M (gmap path node) := fun w => (Ok (fs w), w).
Definition put_fs (m : gmap path node) : M unit :=
  fun w => (Ok tt, mkWorld m (kagglehub_loaded w) (trace w)).

(** Lifting of a filesystem operation that may fail. *)
Definition fs_op (op : gmap path node -> exn + gmap path node) : M unit :=
  let* m := get_fs in
  match op m with
  | inl e => raise e
  | inr m' => put_fs m'
  end.

(** * The filesystem *)

(** [os.stat]: the root always is a directory. *)
Definition stat (m : gmap path node) (p : path) : option node :=
  match p with
  | [] => Some Dir
  | _ => m !! p
  end.

(** [p.exists()] *)
Definition exists_ (m : gmap path node) (p : path) : bool :=
  match stat m p with Some _ => true | None => false end.

(** [p.is_dir()] *)
Definition is_dir (m : gmap path node) (p : path) : bool :=
  match stat m p with Some Dir => true | _ => false end.

(** [p.mkdir(parents=True, exist_ok=True)] and [os.makedirs]: walk down
    from [base], creating the missing directories; a regular file on the
    way is an error. *)
Fixpoint makedirs_from (base rest : path) (m : gmap path node)
    : exn + gmap path node :=
  match rest with
  | [] => inr m
  | c :: rest' =>
      let q := pjoin base c in
      match m !! q with
      | Some Dir => makedirs_from q rest' m
      | Some (File _) =>
          inl (Exn (match rest' with
                    | [] => FileExistsError
                    | _ => NotADirectoryError
                    end) (str q))
      | None => makedirs_from q rest' (<[q := Dir]> m)
      end
  end.

Definition makedirs (p : path) (m : gmap path node) : exn + gmap path node :=
  makedirs_from [] p m.

(** [open(p, 'wb').write(data)] / [open(p, 'w').write(text)]: the file is
    created or truncated; the parent must be a directory. *)
Definition write_file (p : path) (data : list byte) (m : gmap path node)
    : exn + gmap path node :=
  match stat m (parent p) with
  | None => inl (Exn FileNotFoundError (str p))
  | Some (File _) => inl (Exn NotADirectoryError (str p))
  | Some Dir =>
      match stat m p with
      | Some Dir => inl (Exn IsADirectoryError (str p))
      | _ => inr (<[p := File data]> m)
      end
  end.

(** [open(p, 'rb')] followed by reads: the content of a regular file. *)
Definition read_file (p : path) : M (list byte) :=
  let* m := get_fs in
  match stat m p with
  | Some (File data) => ret data
  | Some Dir => raise (Exn IsADirectoryError (str p))
  | None => raise (Exn FileNotFoundError (str p))
  end.

(** [p.unlink()] *)
Definition unlink (p : path) (m : gmap path node) : exn + gmap path node :=
  match stat m p with
  | Some (File _) => inr (delete p m)
  | Some Dir => inl (Exn IsADirectoryError (str p))
  | None => inl (Exn FileNotFoundError (str p))
  end.

(** [shutil.copytree(src, dst)]: [dst] must not exist; it is created with
    its parents and receives a copy of every entry below [src]. *)
Definition rebase (src dst : path) (entry : path * node) : option (path * node) :=
  if decide (src `prefix_of` entry.1)
  then Some (dst ++ drop (length src) entry.1, entry.2)
  else None.

Definition copytree (src dst : path) (m : gmap path node) : exn + gmap path node :=
  match stat m src with
  | None => inl (Exn FileNotFoundError (str src))
  | Some (File _) => inl (Exn NotADirectoryError (str src))
  | Some Dir =>
      match stat m dst with
      | Some _ => inl (Exn FileExistsError (str dst))
      | None =>
          match makedirs dst m with
          | inl e => inl e
          | inr m1 =>
              inr (list_to_map (omap (rebase src dst) (map_to_list m)) ∪ m1)
          end
      end
  end.

(** * The script *)

(** [f.read(n)] in a loop until the empty chunk, feeding the hash:
    [for chunk in iter(lambda: f.read(n), b""): h.update(chunk)].
    [rest] is what the file object has not delivered yet. *)
Equations? read_loop (n : nat) (h : SHA256.state) (rest : list byte)
    : SHA256.state by wf (length rest) lt :=
  read_loop n h rest with inspect (firstn n rest) := {
    | exist _ [] _ => h
    | exist _ (c :: cs) _ =>
        read_loop n (SHA256.update h (c :: cs)) (skipn n rest) }.
Proof.
  destruct n as [|n]; [discriminate|].
  destruct rest as [|b rest]; [discriminate|].
  rewrite length_skipn. simpl. lia.
Qed.

(** The chunks the loop above hands to [update], in order. *)
Equations? chunks (n : nat) (rest : list byte) : list (list byte)
    by wf (length rest) lt :=
  chunks n rest with inspect (firstn n rest) := {
    | exist _ [] _ => []
    | exist _ (c :: cs) _ => (c :: cs) :: chunks n (skipn n rest) }.
Proof.
  destruct n as [|n]; [discriminate|].
  destruct rest as [|b rest]; [discriminate|].
  rewrite length_skipn. simpl. lia.
Qed.

(** Every chunk but the last one has exactly [n] bytes. *)
Fixpoint full_but_last (n : nat) (cs : list (list byte)) : Prop :=
  match cs with
  | c :: (_ :: _) as tl => length c = n /\ full_but_last n tl
  | _ => True
  end.

(** A digest in the form [hexdigest] prints it: digits and [a]-[f]. *)
Fixpoint lower_hex (s : string) : bool :=
  match s with
  | EmptyString => true
  | String c rest => bool_decide (is_Some (SHA256.hex_value c)) && lower_hex rest
  end.

Definition readme_content : string :=
"# Datasets

This directory contains the computer vision datasets for this project.

## GTSDB (German Traffic Sign Detection Benchmark)
- Source: http://benchmark.ini.rub.de/
- Size: ~2.7GB
- Contains: German traffic sign images with annotations

## LISA (Laboratory for Intelligent & Safe Automobiles)
- Source: https://www.kaggle.com/datasets/mbornoe/lisa-traffic-light-dataset
- Size: ~4.9GB  
- Contains: US traffic sign images with annotations
- Downloaded via: kagglehub

## Setup
To download the datasets, run:
```bash
python scripts/download_datasets.py
```

Note: Some datasets require manual download due to license agreements.
".

Definition gtsdb_url : string :=
  "https://sid.erda.dk/public/archives/ff17dc924eba88d5d01a807357d6614c/FullIJCNN2013.zip".
Definition gtsdb_manual_url : string :=
  "https://sid.erda.dk/public/archives/ff17dc924eba88d5d01a807357d6614c/published-archive.html".
Definition lisa_id : string := "mbornoe/lisa-traffic-light-dataset".

(** [if expected_hash:] on an optional string: [None] and the empty
    string are false. *)
Definition truthy (h : option string) : bool :=
  match h with
  | None => false
  | Some s => negb (String.eqb s "")
  end.

Section Downloader.

Context (env : Env).

(** ** External operations *)

(** [urllib.request.urlretrieve(url, destination)] *)
Definition urlretrieve (url : string) (destination : path) : M unit :=
  emit (ENet url) >>
  match urlopen env url with
  | HttpFail e => raise e
  | HttpBody data cut =>
      fs_op (write_file destination data) >>
      match cut with
      | Some e => raise e
      | None => ret tt
      end
  end.

(** [import kagglehub]: a module already loaded is not looked up again. *)
Definition import_kagglehub (site : import_site) : M unit :=
  fun w =>
    if kagglehub_loaded w then (Ok tt, w)
    else
      let w' := mkWorld (fs w) false (trace w ++ [EImport site]) in
      match import_outcome env site with
      | Some e => (Raise e, w')
      | None => (Ok tt, mkWorld (fs w) true (trace w'))
      end.

(** [subprocess.check_call(argv)] *)
Definition check_call (argv : list string) : M unit :=
  emit (EProc argv) >>
  let* m := get_fs in
  let r := check_call_outcome env argv m in
  put_fs r.2 >>
  match r.1 with
  | Some e => raise e
  | None => ret tt
  end.

(** [kagglehub.dataset_download(id)] *)
Definition dataset_download (id : string) : M path :=
  emit (EHub id) >>
  let* m := get_fs in
  let r := dataset_download_outcome env id m in
  put_fs r.2 >>
  match r.1 with
  | inl e => raise e
  | inr p => ret p
  end.

(** [with zipfile.ZipFile(p, 'r') as z: z.extractall(dst)] *)
Definition zip_extractall (archive_path extract_to : path) : M unit :=
  let* data := read_file archive_path in
  match zip_members env data with
  | None => raise (Exn BadZipFile "File is not a zip file")
  | Some mems =>
      let* m := get_fs in
      let r := zip_extract env mems extract_to m in
      put_fs r.2 >>
      match r.1 with
      | Some e => raise e
      | None => ret tt
      end
  end.

(** [with tarfile.open(p, 'r:*') as t: t.extractall(dst)] *)
Definition tar_extractall (archive_path extract_to : path) : M unit :=
  let* data := read_file archive_path in
  match tar_members env data with
  | None => raise (Exn ReadError "file could not be opened successfully")
  | Some mems =>
      let* m := get_fs in
      let r := tar_extract env mems extract_to m in
      put_fs r.2 >>
      match r.1 with
      | Some e => raise e
      | None => ret tt
      end
  end.

(** ** [class DatasetDownloader] *)

(** [self.data_dir] *)
Definition data_dir : path :=
  pjoin (pjoin (parent (parent (script_file env))) "data") "raw".

Definition __init__ : M unit :=
  method "__init__" (fs_op (makedirs data_dir)).

Definition verify_hash (filepath : path) (expected_hash : string) : M bool :=
  method "verify_hash"
    (let* data := read_file filepath in
     let sha256_hash := read_loop 4096 SHA256.init data in
     ret (String.eqb (SHA256.hexdigest sha256_hash) expected_hash)).

Definition download_file (url : string) (destination : path)
    (expected_hash : option string) : M unit :=
  method "download_file"
    (print ("Downloading " +:+ url +:+ "...") >>
     try_except
       (urlretrieve url destination >>
        print ("Downloaded to " +:+ str destination) >>
        if truthy expected_hash then
          let* ok := verify_hash destination (default "" expected_hash) in
          if negb ok
          then raise (Exn ValueError
                        ("Hash verification failed for " +:+ str destination))
          else ret tt
        else ret tt)
       is_Exception
       (fun e => print ("Download failed: " +:+ exn_msg e) >> raise e)).

Definition extract_archive (archive_path extract_to : path) : M unit :=
  method "extract_archive"
    (print ("Extracting " +:+ str archive_path +:+ "...") >>
     (if String.eqb (lower (suffix archive_path)) ".zip" then
        zip_extractall archive_path extract_to
      else if bool_decide (lower (suffix archive_path) ∈ [".tar"; ".gz"; ".tgz"]) then
        tar_extractall archive_path extract_to
      else
        raise (Exn ValueError
                 ("Unsupported archive format: " +:+ suffix archive_path))) >>
     print ("Extracted to " +:+ str extract_to)).

(** The [try] block of [download_gtsdb]. *)
Definition gtsdb_try (filepath : path) : M unit :=
  print "Downloading GTSDB Full IJCNN 2013 dataset (~2.7GB)..." >>
  print "This may take several minutes depending on your connection." >>
  download_file gtsdb_url filepath None >>
  extract_archive filepath data_dir >>
  fs_op (unlink filepath) >>
  print "GTSDB download and extraction completed!".

(** The [except Exception as e] block of [download_gtsdb]. *)
Definition gtsdb_except (e : exn) : M unit :=
  print ("Error downloading GTSDB: " +:+ exn_msg e) >>
  print "You can manually download from:" >>
  print gtsdb_manual_url.

Definition download_gtsdb : M unit :=
  method "download_gtsdb"
    (let gtsdb_dir := pjoin data_dir "GTSDB" in
     let* m := get_fs in
     if exists_ m gtsdb_dir then
       print "GTSDB already exists, skipping download."
     else
       print "=== Downloading GTSDB Dataset ===" >>
       let filename := "FullIJCNN2013.zip" in
       let filepath := pjoin data_dir filename in
       try_except (gtsdb_try filepath) is_Exception gtsdb_except).

Definition install_kagglehub : M bool :=
  method "install_kagglehub"
    (try_except
       (import_kagglehub ImportProbe >> ret true)
       is_ImportError
       (fun _ =>
          print "kagglehub not found. Installing via pipx..." >>
          try_except
            (check_call ["pipx"; "install"; "kagglehub"; "--include-deps"] >>
             ret true)
            is_Exception
            (fun e1 =>
               print ("pipx install failed: " +:+ exn_msg e1) >>
               try_except
                 (print "Trying pip with --break-system-packages..." >>
                  check_call [sys_executable env; "-m"; "pip"; "install";
                              "kagglehub"; "--break-system-packages"] >>
                  import_kagglehub ImportAfterPip >>
                  ret true)
                 is_Exception
                 (fun e2 =>
                    print ("Failed to install kagglehub: " +:+ exn_msg e2) >>
                    print "Please install manually:" >>
                    print "pipx install kagglehub --include-deps" >>
                    print "or: pip install kagglehub --break-system-packages" >>
                    ret false)))).

(** The [try] block of [download_lisa]. *)
Definition lisa_try (lisa_dir : path) : M unit :=
  import_kagglehub ImportInDownload >>
  print "Downloading LISA traffic light dataset from Kaggle..." >>
  print "This may take several minutes depending on your connection." >>
  let* downloaded_path := dataset_download lisa_id in
  print ("Dataset downloaded to: " +:+ str downloaded_path) >>
  let* m := get_fs in
  if exists_ m downloaded_path then
    (if is_dir m downloaded_path
     then fs_op (copytree downloaded_path lisa_dir)
     else extract_archive downloaded_path lisa_dir) >>
    print "LISA dataset setup completed!"
  else
    print ("Downloaded path " +:+ str downloaded_path +:+ " not found.").

(** The [except Exception as e] block of [download_lisa]. *)
Definition lisa_except (e : exn) : M unit :=
  print ("Error downloading LISA dataset: " +:+ exn_msg e) >>
  print "You can manually download from:" >>
  print "https://www.kaggle.com/datasets/mbornoe/lisa-traffic-light-dataset" >>
  print "Or use: kagglehub.dataset_download('mbornoe/lisa-traffic-light-dataset')".

Definition download_lisa : M unit :=
  method "download_lisa"
    (let lisa_dir := pjoin data_dir "LISA" in
     let* m := get_fs in
     if exists_ m lisa_dir then
       print "LISA already exists, skipping download."
     else
       print "=== Downloading LISA Dataset from Kaggle ===" >>
       let* installed := install_kagglehub in
       if negb installed then
         print "Error: Could not install kagglehub." >>
         print "Please install manually: pip install kagglehub"
       else
         try_except (lisa_try lisa_dir) is_Exception lisa_except).

Definition create_readme : M unit :=
  method "create_readme"
    (let readme_path := pjoin data_dir "README.md" in
     fs_op (write_file readme_path (bytes_of_string readme_content))).

Definition run : M unit :=
  method "run"
    (print "Starting dataset download process..." >>
     print ("Data directory: " +:+ str data_dir) >>
     create_readme >>
     download_gtsdb >>
     download_lisa >>
     print (nl +:+ "=== Download Process Complete ===") >>
     print "Note: Some datasets may require manual download." >>
     print "Check the README.md in the data/raw directory for details.").

(** ** [if __name__ == "__main__":] *)

(** The process exit status and the final world. *)
Definition main (w : World) : Z * World :=
  match (__init__ >> run) w with
  | (Ok _, w') => (0, w')
  | (Raise e, w') =>
      if is_KeyboardInterrupt e then
        (1, (print (nl +:+ "Download interrupted by user.") w').2)
      else if is_Exception e then
        (1, (print ("Error: " +:+ exn_msg e) w').2)
      else (1, w')
  end.

End Downloader.

(** * Vocabulary of the specification *)

(** The two datasets and their sync operations ([syncDirectDataset] is
    [download_gtsdb], [syncHubDataset] is [download_lisa]). *)
Inductive dataset := GTSDB | LISA.

Definition dataset_name (d : dataset) : string :=
  match d with GTSDB => "GTSDB" | LISA => "LISA" end.

Definition sync_name (d : dataset) : string :=
  match d with GTSDB => "download_gtsdb" | LISA => "download_lisa" end.

(** The dataset's target subdirectory under the raw-data root. *)
Definition target (env : Env) (d : dataset) : path :=
  pjoin (data_dir env) (dataset_name d).

Definition sync (env : Env) (d : dataset) : M unit :=
  match d with GTSDB => download_gtsdb env | LISA => download_lisa env end.

Definition skip_message (d : dataset) : string :=
  dataset_name d +:+ " already exists, skipping download.".

(** Events that leave the process: network, subprocess, hub, import. *)
Definition external (e : event) : bool :=
  match e with
  | ENet _ | EProc _ | EHub _ | EImport _ => true
  | _ => false
  end.

(** The same world with [n] at path [p]. *)
Definition with_node (w : World) (p : path) (n : node) : World :=
  mkWorld (<[p := n]> (fs w)) (kagglehub_loaded w) (trace w).

(** ** The specification's wording of two properties *)

(** The fetch property for every supplied hash, the empty string
    included: after a successful download, equal digests mean a normal
    return and different digests mean a [ValueError] with the file kept. *)
Definition fetch_checks_every_supplied_hash : Prop :=
  forall env w url destination h data m',
    urlopen env url = HttpBody data None ->
    write_file destination data (fs w) = inr m' ->
    (SHA256.sha256_hex data = h ->
     (download_file env url destination (Some h) w).1 = Ok tt) /\
    (SHA256.sha256_hex data <> h ->
     (exists msg, (download_file env url destination (Some h) w).1
                  = Raise (Exn ValueError msg)) /\
     stat (fs (download_file env url destination (Some h) w).2) destination
       = Some (File data)).

(** Extraction by the library call [core], between the two progress
    messages of [extract_archive]. *)
Definition extract_with (core : M unit) (archive_path extract_to : path) : M unit :=
  method "extract_archive"
    (print ("Extracting " +:+ str archive_path +:+ "...") >>
     core >>
     print ("Extracted to " +:+ str extract_to)).

(** The dispatch property on the extension exactly as spelled. *)
Definition extract_dispatch_on_exact_extension : Prop :=
  forall env archive_path extract_to w,
    (suffix archive_path = ".zip" ->
     extract_archive env archive_path extract_to w =
       extract_with (zip_extractall env archive_path extract_to)
                    archive_path extract_to w) /\
    (suffix archive_path ∈ [".tar"; ".gz"; ".tgz"] ->
     extract_archive env archive_path extract_to w =
       extract_with (tar_extractall env archive_path extract_to)
                    archive_path extract_to w) /\
    (suffix archive_path ∉ [".zip"; ".tar"; ".gz"; ".tgz"] ->
     (exists msg, (extract_archive env archive_path extract_to w).1
                  = Raise (Exn ValueError msg)) /\
     fs (extract_archive env archive_path extract_to w).2 = fs w).

(** ** Traces *)

(** [m] only adds events that satisfy [P] to the trace. *)
Definition emits {A} (P : event -> Prop) (m : M A) : Prop :=
  forall w, exists t, trace (m w).2 = trace w ++ t /\ Forall P t.

(** Every run of [m] puts the event [e] on the trace. *)
Definition reaches {A} (e : event) (m : M A) : Prop :=
  forall w, exists t1 t2, trace (m w).2 = trace w ++ t1 ++ e :: t2.

Definition final_status : string := nl +:+ "=== Download Process Complete ===".

(** The events that mark the steps of a run: entry and exit of the four
    step methods, and the first line of the final status message. *)
Definition top_level (e : event) : bool :=
  match e with
  | ECall f | ERet f =>
      existsb (String.eqb f)
        ["__init__"; "create_readme"; "download_gtsdb"; "download_lisa"]
  | EPrint s => String.eqb s final_status
  | _ => false
  end.

Definition visible (t : list event) : list event := List.filter top_level t.

Definition quiet (e : event) : Prop := top_level e = false.

(** The steps of a complete run, in order. *)
Definition full_run : list event :=
  [ECall "__init__"; ERet "__init__";
   ECall "create_readme"; ERet "create_readme";
   ECall "download_gtsdb"; ERet "download_gtsdb";
   ECall "download_lisa"; ERet "download_lisa";
   EPrint final_status].

(** [m] shows the step events [full] when it returns, and a prefix of
    them when it raises. *)
Definition runs_as {A} (m : M A) (full : list event) : Prop :=
  forall w, exists t,
    trace (m w).2 = trace w ++ t /\
    match (m w).1 with
    | Ok _ => visible t = full
    | Raise _ => visible t `prefix_of` full
    end.

(** ** Escaping exceptions *)

(** Every exception that escapes [m] satisfies [Q]. *)
Definition raises_only {A} (Q : exn -> Prop) (m : M A) : Prop :=
  forall w e, (m w).1 = Raise e -> Q e.

(** An error raised by the first [import kagglehub] of
    [install_kagglehub] that is not an [ImportError]. *)
Definition probe_error (env : Env) (e : exn) : Prop :=
  import_outcome env ImportProbe = Some e /\ is_ImportError e = false.

(** The workspace could not be set up, or the README not be written. *)
Definition setup_error (env : Env) (e : exn) : Prop :=
  (exists m, makedirs (data_dir env) m = inl e) \/
  (exists m, write_file (pjoin (data_dir env) "README.md")
               (bytes_of_string readme_content) m = inl e).

(** The containment property in the specification's wording: nothing but
    a user interrupt leaves a dataset sync, and the exit status is 1 only
    after a user interrupt or a failure of the workspace setup or of the
    README. *)
Definition sync_failures_contained : Prop :=
  (forall env d, raises_only (fun e => is_Exception e = false) (sync env d)) /\
  (forall env w,
     (main env w).1 = 1 ->
     exists e, ((__init__ env >> run env) w).1 = Raise e /\
               (is_Exception e = false \/ setup_error env e)).

(** ** What the syncs may reach outside the process *)

(** [download_gtsdb]: nothing but the fixed URL. *)
Definition gtsdb_reach (e : event) : Prop :=
  external e = true -> e = ENet gtsdb_url.

(** ** Installer command lines *)

(** The two command lines [install_kagglehub] may run. *)
Definition pipx_argv : list string :=
  ["pipx"; "install"; "kagglehub"; "--include-deps"].
Definition pip_argv (env : Env) : list string :=
  [sys_executable env; "-m"; "pip"; "install"; "kagglehub";
   "--break-system-packages"].

(** [download_lisa]: imports of the client, the two installer command
    lines and the hub call for the fixed dataset; no direct network call. *)
Definition lisa_reach (env : Env) (e : event) : Prop :=
  match e with
  | ENet _ => False
  | EProc argv => argv = pipx_argv \/ argv = pip_argv env
  | EHub id => id = lisa_id
  | _ => True
  end.

(** * Concrete runs *)

(** Small closed environments and worlds on which the script is run by
    evaluation. *)
Module Scenario.

Definition script : path := ["repo"; "scripts"; "download_datasets.py"].
Definition raw : path := ["repo"; "data"; "raw"].

(** [extractall] on the archives of these runs, whose member names are
    plain and whose destination exists with nothing in the way: each
    member is put at its name below the destination. *)
Definition place_members (mems : list (path * node)) (dst : path)
    (m : gmap path node) : option exn * gmap path node :=
  (None, foldl (fun acc mem => <[dst ++ mem.1 := mem.2]> acc) m mems).

(** No network, no hub client and no way to install it. *)
Definition offline : Env :=
  mkEnv script "/usr/bin/python3"
    (fun _ => HttpFail (Exn URLError "<urlopen error timed out>"))
    (fun _ => None)
    (fun _ => None)
    (fun _ => Some (Exn ImportError "No module named 'kagglehub'"))
    (fun _ m => (Some (Exn CalledProcessError "non-zero exit status 1"), m))
    (fun _ m => (inl (Exn OtherError "hub unreachable"), m))
    place_members place_members.

Definition archive : list byte := bytes_of_string "PK archive with a.txt".
Definition a_txt : list byte := bytes_of_string "hello".

(** The direct-dataset URL serves a zip with the single member [a.txt]. *)
Definition serving_zip : Env :=
  mkEnv script "/usr/bin/python3"
    (fun _ => HttpBody archive None)
    (fun d => if decide (d = archive) then Some [(["a.txt"], File a_txt)] else None)
    (fun _ => None)
    (import_outcome offline)
    (check_call_outcome offline)
    (dataset_download_outcome offline)
    place_members place_members.

(** The hub client is installed but fails to load with an error that is
    not an [ImportError] (a [SyntaxError] under an older interpreter,
    say). *)
Definition broken_client : Env :=
  mkEnv script "/usr/bin/python3"
    (urlopen offline) (zip_members offline) (tar_members offline)
    (fun _ => Some (Exn OtherError "invalid syntax"))
    (check_call_outcome offline)
    (dataset_download_outcome offline)
    place_members place_members.

(** Any URL serves the three bytes [abc]. *)
Definition serving_abc : Env :=
  mkEnv script "/usr/bin/python3"
    (fun _ => HttpBody (bytes_of_string "abc") None)
    (zip_members offline) (tar_members offline)
    (import_outcome offline)
    (check_call_outcome offline)
    (dataset_download_outcome offline)
    place_members place_members.

Definition abc_digest : string :=
  "ba7816bf8f01cfea414140de5dae2223b00361a396177a9cb410ff61f20015ad".

(** The raw-data root exists and is empty. *)
Definition empty_root : World :=
  mkWorld (list_to_map [(["repo"], Dir); (["repo"; "data"], Dir); (raw, Dir)])
          false [].

(** [LISA/] is there already, with some content. *)
Definition with_lisa : World :=
  with_node (with_node empty_root (pjoin raw "LISA") Dir)
            (pjoin (pjoin raw "LISA") "notes.txt") (File (bytes_of_string "mine")).

(** A regular file sits where the [GTSDB] directory is expected. *)
Definition gtsdb_is_file : World :=
  with_node empty_root (pjoin raw "GTSDB") (File (bytes_of_string "not a directory")).

(** A different [README.md] is there already. *)
Definition stale_readme : World :=
  with_node empty_root (pjoin raw "README.md") (File (bytes_of_string "old notes")).

(** A file holding the three bytes [abc]. *)
Definition with_abc : World :=
  with_node empty_root (pjoin raw "abc.bin") (File (bytes_of_string "abc")).

(** An archive with an upper-case extension. *)
Definition upper_zip : World :=
  with_node empty_root (pjoin raw "DATA.ZIP") (File archive).

(** The transfer stops after two bytes. *)
Definition cut_short : Env :=
  mkEnv script "/usr/bin/python3"
    (fun _ => HttpBody (bytes_of_string "ab")
                (Some (Exn OtherError "retrieval incomplete")))
    (zip_members offline) (tar_members offline)
    (import_outcome offline)
    (check_call_outcome offline)
    (dataset_download_outcome offline)
    place_members place_members.

(** The hub client is missing and [pipx] installs it. *)
Definition pipx_works : Env :=
  mkEnv script "/usr/bin/python3"
    (urlopen offline) (zip_members offline) (tar_members offline)
    (import_outcome offline)
    (fun argv m => (if decide (argv = pipx_argv) then None
                    else Some (Exn CalledProcessError "non-zero exit status 1"), m))
    (dataset_download_outcome offline)
    place_members place_members.



(** The hub client is available and answers with a path that is not
    there. *)
Definition hub_path_missing : Env :=
  mkEnv script "/usr/bin/python3"
    (urlopen offline) (zip_members offline) (tar_members offline)
    (fun _ => None)
    (check_call_outcome offline)
    (fun _ m => (inr ["cache"; "gone"], m))
    place_members place_members.

(** The URL serves bytes that are not a zip archive. *)
Definition serving_garbage : Env :=
  mkEnv script "/usr/bin/python3"
    (fun _ => HttpBody (bytes_of_string "<html>") None)
    (zip_members offline) (tar_members offline)
    (import_outcome offline)
    (check_call_outcome offline)
    (dataset_download_outcome offline)
    place_members place_members.

(** The user interrupts the download. *)
Definition interrupted : Env :=
  mkEnv script "/usr/bin/python3"
    (fun _ => HttpFail (Exn KeyboardInterrupt ""))
    (zip_members offline) (tar_members offline)
    (import_outcome offline)
    (check_call_outcome offline)
    (dataset_download_outcome offline)
    place_members place_members.

(** The user interrupts the download after two bytes. *)
Definition interrupted_midway : Env :=
  mkEnv script "/usr/bin/python3"
    (fun _ => HttpBody (bytes_of_string "ab") (Some (Exn KeyboardInterrupt "")))
    (zip_members offline) (tar_members offline)
    (import_outcome offline)
    (check_call_outcome offline)
    (dataset_download_outcome offline)
    place_members place_members.

(** A regular file sits where the [data] directory is expected. *)
Definition data_is_file : World :=
  mkWorld (list_to_map [(["repo"], Dir);
                        (["repo"; "data"], File (bytes_of_string "x"))])
          false [].

(** A directory sits where [README.md] is expected. *)
Definition readme_is_dir : World :=
  with_node empty_root (pjoin raw "README.md") Dir.

End Scenario.

(** * Facts about the hash object *)

Module SHA256_facts.
Import SHA256.

Lemma absorb_S k H data :
  absorb (S k) H data = absorb k (compress H (take 64 data)) (drop 64 data).
Proof. reflexivity. Qed.

Lemma absorb_plus n m H x :
  absorb (n + m) H x = absorb m (absorb n H x).1 (absorb n H x).2.
Proof.
  revert H x. induction n as [|n IH]; intros H x; [reflexivity|].
  rewrite Nat.add_succ_l, !absorb_S. apply IH.
Qed.

Lemma absorb_app n H x y :
  (64 * n <= length x)%nat ->
  absorb n H (x ++ y) = ((absorb n H x).1, (absorb n H x).2 ++ y).
Proof.
  revert H x. induction n as [|n IH]; intros H x Hlen; [reflexivity|].
  rewrite !absorb_S.
  rewrite take_app_le, drop_app_le by lia.
  apply IH. rewrite length_drop. lia.
Qed.

Lemma absorb_rest n H x : (absorb n H x).2 = drop (64 * n) x.
Proof.
  revert H x. induction n as [|n IH]; intros H x; [reflexivity|].
  rewrite absorb_S, IH, drop_drop. f_equal. lia.
Qed.

Lemma compress_length H block : length (compress H block) = 8%nat.
Proof. reflexivity. Qed.

Lemma absorb_chain_length n H x :
  length H = 8%nat -> length (absorb n H x).1 = 8%nat.
Proof.
  revert H x. induction n as [|n IH]; intros H x HH; [exact HH|].
  rewrite absorb_S. apply IH, compress_length.
Qed.

Lemma init_wf : wf init.
Proof. split; [reflexivity | simpl; lia]. Qed.

Lemma update_pending st data : (length (pending (update st data)) < 64)%nat.
Proof.
  unfold update.
  pose proof (absorb_rest
                (length (pending st ++ data) / 64) (chain st)
                (pending st ++ data)) as Hr.
  destruct (absorb _ _ _) as [H rest]. cbn [snd pending] in *. subst rest.
  rewrite length_drop.
  pose proof (Nat.div_mod_eq (length (pending st ++ data)) 64).
  pose proof (Nat.mod_upper_bound (length (pending st ++ data)) 64).
  lia.
Qed.

Lemma update_chain st data :
  length (chain st) = 8%nat -> length (chain (update st data)) = 8%nat.
Proof.
  intros Hc. unfold update.
  pose proof (absorb_chain_length
                (length (pending st ++ data) / 64) (chain st)
                (pending st ++ data) Hc) as H8.
  destruct (absorb _ _ _) as [H rest]. exact H8.
Qed.

Lemma update_wf st data : wf st -> wf (update st data).
Proof.
  intros [Hc _]. split; [now apply update_chain | apply update_pending].
Qed.

Lemma update_nil st : (length (pending st) < 64)%nat -> update st [] = st.
Proof.
  intros Hp. unfold update. rewrite app_nil_r.
  rewrite Nat.div_small by exact Hp. cbn [absorb].
  destruct st as [c p k]. cbn [chain pending count]. f_equal.
  apply Nat.add_0_r.
Qed.

(** The law [hashlib] documents: feeding [a] and then [b] is feeding
    [a + b]. *)
Lemma update_app st a b : update (update st a) b = update st (a ++ b).
Proof.
  unfold update.
  set (all := pending st ++ a).
  set (n := (length all / 64)%nat).
  pose proof (absorb_rest n (chain st) all) as Hr.
  destruct (absorb n (chain st) all) as [H1 r1] eqn:E1. cbn [snd] in Hr.
  cbn [chain pending count].
  replace (pending st ++ a ++ b) with (all ++ b)
    by (unfold all; now rewrite <- app_assoc).
  assert (Hn : (64 * n <= length all)%nat).
  { unfold n. pose proof (Nat.div_mod_eq (length all) 64). lia. }
  assert (Hlen : length r1 = (length all - 64 * n)%nat).
  { rewrite Hr. apply length_drop. }
  assert (Hdiv : (length (all ++ b) / 64 = n + length (r1 ++ b) / 64)%nat).
  { rewrite !length_app, Hlen.
    replace (length all + length b)%nat
      with (n * 64 + (length all - 64 * n + length b))%nat by lia.
    rewrite Nat.div_add_l by lia. reflexivity. }
  rewrite Hdiv, absorb_plus, (absorb_app n (chain st) all b Hn).
  rewrite E1. cbn [fst snd].
  destruct (absorb _ H1 (r1 ++ b)) as [H2 r2].
  f_equal. rewrite length_app. lia.
Qed.

Lemma hex_of_bytes_length bs :
  String.length (hex_of_bytes bs) = (2 * length bs)%nat.
Proof. induction bs as [|b bs IH]; simpl; [reflexivity | rewrite IH; lia]. Qed.

Lemma hex_of_bytes_lower bs : lower_hex (hex_of_bytes bs) = true.
Proof.
  induction bs as [|b bs IH]; [reflexivity|].
  cbn [hex_of_bytes lower_hex]. rewrite IH.
  destruct b; reflexivity.
Qed.

Lemma digest_length st : length (chain st) = 8%nat -> length (digest st) = 32%nat.
Proof.
  intros Hc. unfold digest.
  pose proof (absorb_chain_length
                (length (pending st ++ padding (count st)) / 64) (chain st)
                (pending st ++ padding (count st)) Hc) as H8.
  destruct (absorb _ _ _).1 as [|w0 [|w1 [|w2 [|w3 [|w4 [|w5 [|w6 [|w7 [|w8 l]]]]]]]]];
    try discriminate.
  reflexivity.
Qed.

Lemma hexdigest_length st :
  length (chain st) = 8%nat -> String.length (hexdigest st) = 64%nat.
Proof.
  intros Hc. unfold hexdigest.
  now rewrite hex_of_bytes_length, digest_length.
Qed.

(** The test vectors of FIPS 180-4 (one block, empty message, two
    blocks). *)
Example sha256_abc :
  sha256_hex (bytes_of_string "abc") =
  "ba7816bf8f01cfea414140de5dae2223b00361a396177a9cb410ff61f20015ad".
Proof. vm_compute. reflexivity. Qed.

Example sha256_empty :
  sha256_hex [] =
  "e3b0c44298fc1c149afbf4c8996fb92427ae41e4649b934ca495991b7852b855".
Proof. vm_compute. reflexivity. Qed.

Example sha256_two_blocks :
  sha256_hex
    (bytes_of_string "abcdbcdecdefdefgefghfghighijhijkijkljklmklmnlmnomnopnopq") =
  "248d6a61d20638b8e5c026930c3e6039a33ce45964ff2167f6ecedd419db06c1".
Proof. vm_compute. reflexivity. Qed.

End SHA256_facts.

(** * The chunked read *)

Lemma take_nil_inv {A} (n : nat) (l : list A) :
  (0 < n)%nat -> take n l = [] -> l = [].
Proof. destruct n, l; simpl; intros; try lia; congruence. Qed.

(** Feeding the file chunk by chunk is feeding it whole. *)
Lemma read_loop_update n h rest :
  (0 < n)%nat -> (length (SHA256.pending h) < 64)%nat ->
  read_loop n h rest = SHA256.update h rest.
Proof.
  intros Hn. funelim (read_loop n h rest); intros Hp.
  - rewrite (take_nil_inv n rest Hn e).
    symmetry. now apply SHA256_facts.update_nil.
  - rewrite H by (exact Hn || apply SHA256_facts.update_pending).
    rewrite SHA256_facts.update_app, <- e, take_drop. reflexivity.
Qed.

Lemma chunks_eq n rest :
  chunks n rest =
  match take n rest with
  | [] => []
  | c :: cs => (c :: cs) :: chunks n (drop n rest)
  end.
Proof. funelim (chunks n rest); rewrite e; reflexivity. Qed.

Lemma read_loop_eq n h rest :
  read_loop n h rest =
  match take n rest with
  | [] => h
  | c :: cs => read_loop n (SHA256.update h (c :: cs)) (drop n rest)
  end.
Proof. funelim (read_loop n h rest); rewrite e; reflexivity. Qed.

Lemma read_loop_chunks n h rest :
  read_loop n h rest = fold_left SHA256.update (chunks n rest) h.
Proof.
  funelim (read_loop n h rest); rewrite chunks_eq, e; [reflexivity|].
  cbn [fold_left]. assumption.
Qed.

Lemma chunks_concat n rest : (0 < n)%nat -> concat (chunks n rest) = rest.
Proof.
  intros Hn. funelim (chunks n rest).
  - now rewrite (take_nil_inv n rest Hn e).
  - cbn [concat]. rewrite H by exact Hn. rewrite <- e. apply take_drop.
Qed.

Lemma chunks_sizes n rest :
  Forall (fun c => (0 < length c <= n)%nat) (chunks n rest).
Proof.
  funelim (chunks n rest); constructor; [|assumption].
  rewrite <- e, length_take. split; [|lia].
  rewrite <- e in *. destruct n, rest; simpl in *; try discriminate; lia.
Qed.

Lemma chunks_full_but_last n rest : full_but_last n (chunks n rest).
Proof.
  funelim (chunks n rest); [exact I|].
  cbn [full_but_last].
  destruct (chunks n (drop n rest)) as [|c' tl] eqn:E; [exact I|].
  split; [|assumption].
  rewrite <- e, length_take.
  assert (drop n rest <> []) as Hne.
  { intros Hnil. rewrite chunks_eq, Hnil in E. now destruct n. }
  assert (n < length rest)%nat; [|lia].
  destruct (decide (n < length rest)%nat) as [|Hge]; [assumption|].
  exfalso. apply Hne, drop_ge. lia.
Qed.

(** * Running the monad *)

Lemma log_log w a b : log (log w a) b = log w (a ++ b).
Proof. unfold log. cbn [fs kagglehub_loaded trace]. now rewrite app_assoc. Qed.

Lemma log_nil w : log w [] = w.
Proof. destruct w. unfold log. cbn [fs kagglehub_loaded trace]. now rewrite app_nil_r. Qed.

Ltac msimpl :=
  repeat (progress
            (unfold method, print, emit, bind, get_fs, put_fs, ret, raise,
               fs_op, try_except;
             cbn beta iota zeta delta [fs trace kagglehub_loaded fst snd log])).

Ltac msimpl_in H :=
  repeat (progress
            (unfold method, print, emit, bind, get_fs, put_fs, ret, raise,
               fs_op, try_except in H;
             cbn beta iota zeta delta [fs trace kagglehub_loaded fst snd log] in H)).

Ltac norm_trace := repeat (first [rewrite <- app_assoc | progress (cbn [app])]).

Lemma pjoin_not_root p c : pjoin p c <> [].
Proof. unfold pjoin. now destruct p. Qed.

Lemma stat_pjoin m p c : stat m (pjoin p c) = m !! pjoin p c.
Proof. unfold stat. pose proof (pjoin_not_root p c). now destruct (pjoin p c). Qed.

(** ** The idempotency guard *)

Lemma download_gtsdb_skip env w :
  exists_ (fs w) (pjoin (data_dir env) "GTSDB") = true ->
  download_gtsdb env w =
  (Ok tt, log w [ECall "download_gtsdb";
                 EPrint "GTSDB already exists, skipping download.";
                 ERet "download_gtsdb"]).
Proof.
  intros H. unfold download_gtsdb. msimpl. rewrite H. msimpl.
  now rewrite !log_log.
Qed.

Lemma download_lisa_skip env w :
  exists_ (fs w) (pjoin (data_dir env) "LISA") = true ->
  download_lisa env w =
  (Ok tt, log w [ECall "download_lisa";
                 EPrint "LISA already exists, skipping download.";
                 ERet "download_lisa"]).
Proof.
  intros H. unfold download_lisa. msimpl. rewrite H. msimpl.
  now rewrite !log_log.
Qed.

Lemma sync_skip env d w :
  exists_ (fs w) (target env d) = true ->
  sync env d w =
  (Ok tt, log w [ECall (sync_name d); EPrint (skip_message d); ERet (sync_name d)]).
Proof.
  destruct d; [apply download_gtsdb_skip | apply download_lisa_skip].
Qed.

(** C1. A dataset sync whose target subdirectory already exists returns
    at once: it succeeds, the filesystem (the raw-data root included) is
    exactly what it was, and the only events are the method's entry, the
    skip message and the method's exit, none of which is a network,
    subprocess, hub or import event. *)
Theorem sync_noop_when_target_exists env d w :
  exists_ (fs w) (target env d) = true ->
  (sync env d w).1 = Ok tt /\
  fs (sync env d w).2 = fs w /\
  kagglehub_loaded (sync env d w).2 = kagglehub_loaded w /\
  trace (sync env d w).2 =
    trace w ++ [ECall (sync_name d); EPrint (skip_message d); ERet (sync_name d)] /\
  forall e, e ∈ drop (length (trace w)) (trace (sync env d w).2) -> external e = false.
Proof.
  intros H. rewrite (sync_skip env d w H). cbn [fst snd log fs kagglehub_loaded trace].
  repeat split.
  intros e. rewrite drop_app_length.
  rewrite !elem_of_cons, elem_of_nil. intros [-> | [-> | [-> | []]]]; reflexivity.
Qed.

(** C10. The guard only asks whether the target path exists.  With a
    regular file at the target path the sync is skipped; result and
    events are those of the same world with a directory at that path, and
    the file stays as it is. *)
Theorem sync_skipped_for_plain_file env d w data :
  fs w !! target env d = Some (File data) ->
  sync env d w =
    (Ok tt, log w [ECall (sync_name d); EPrint (skip_message d); ERet (sync_name d)]) /\
  (sync env d w).1 = (sync env d (with_node w (target env d) Dir)).1 /\
  trace (sync env d w).2 = trace (sync env d (with_node w (target env d) Dir)).2 /\
  fs (sync env d w).2 !! target env d = Some (File data).
Proof.
  intros H.
  assert (Hf : exists_ (fs w) (target env d) = true).
  { unfold exists_, target. rewrite stat_pjoin. unfold target in H. now rewrite H. }
  assert (Hd : exists_ (fs (with_node w (target env d) Dir)) (target env d) = true).
  { unfold exists_, target, with_node. cbn [fs].
    now rewrite stat_pjoin, lookup_insert_eq. }
  rewrite (sync_skip env d w Hf), (sync_skip env d _ Hd).
  cbn [fst snd log fs trace with_node]. auto.
Qed.

Lemma sync_noop_when_target_exists_witness :
  exists_ (fs Scenario.with_lisa) (target Scenario.offline LISA) = true /\
  (sync Scenario.offline LISA Scenario.with_lisa).1 = Ok tt /\
  fs (sync Scenario.offline LISA Scenario.with_lisa).2 = fs Scenario.with_lisa.
Proof.
  split; [reflexivity|].
  pose proof (sync_noop_when_target_exists
                Scenario.offline LISA Scenario.with_lisa eq_refl) as H.
  split; [exact (proj1 H) | exact (proj1 (proj2 H))].
Defined.

Lemma sync_skipped_for_plain_file_witness :
  fs Scenario.gtsdb_is_file !! target Scenario.offline GTSDB
    = Some (File (bytes_of_string "not a directory")) /\
  sync Scenario.offline GTSDB Scenario.gtsdb_is_file =
    (Ok tt, log Scenario.gtsdb_is_file
              [ECall "download_gtsdb";
               EPrint "GTSDB already exists, skipping download.";
               ERet "download_gtsdb"]).
Proof.
  split; [reflexivity|].
  exact (proj1 (sync_skipped_for_plain_file
                  Scenario.offline GTSDB Scenario.gtsdb_is_file _ eq_refl)).
Defined.

(** ** Reading, hashing, fetching *)

Lemma read_file_ok p data w :
  stat (fs w) p = Some (File data) -> read_file p w = (Ok data, w).
Proof. intros H. unfold read_file. msimpl. rewrite H. reflexivity. Qed.

Lemma write_file_inv p data m m' :
  write_file p data m = inr m' ->
  m' = <[p := File data]> m /\ stat m' p = Some (File data).
Proof.
  unfold write_file. intros H.
  destruct (stat m (parent p)) as [[|?]|]; try discriminate.
  destruct p as [|c p].
  - discriminate.
  - assert (m' = <[c :: p := File data]> m) as ->
        by (destruct (stat m (c :: p)) as [[|?]|]; congruence).
    split; [reflexivity|]. cbn [stat]. apply lookup_insert_eq.
Qed.

Lemma sha256_hex_read_loop data :
  SHA256.hexdigest (read_loop 4096 SHA256.init data) = SHA256.sha256_hex data.
Proof.
  unfold SHA256.sha256_hex. rewrite read_loop_update; [reflexivity | | ].
  - apply Nat.lt_0_succ.
  - apply SHA256_facts.init_wf.
Qed.

Lemma verify_hash_run w filepath data expected_hash :
  stat (fs w) filepath = Some (File data) ->
  verify_hash filepath expected_hash w =
    (Ok (String.eqb (SHA256.sha256_hex data) expected_hash),
     log w [ECall "verify_hash"; ERet "verify_hash"]).
Proof.
  intros H. unfold verify_hash. msimpl.
  rewrite (read_file_ok filepath data) by exact H.
  msimpl. rewrite sha256_hex_read_loop, log_log. reflexivity.
Qed.

(** C5. On a regular file, [verify_hash] answers whether the SHA-256 hex
    digest of the file's content is string-equal to the expected hash.
    The digest is computed from the chunks the read loop delivers: they
    concatenate to the content, none is empty or longer than 4096 bytes
    and all but the last have exactly 4096 bytes; it has 64 characters,
    all of them digits or lower-case [a]-[f]. *)
Theorem verify_hash_streams_sha256 w filepath data expected_hash :
  stat (fs w) filepath = Some (File data) ->
  verify_hash filepath expected_hash w =
    (Ok (String.eqb (SHA256.sha256_hex data) expected_hash),
     log w [ECall "verify_hash"; ERet "verify_hash"]) /\
  (String.eqb (SHA256.sha256_hex data) expected_hash = true <->
   SHA256.sha256_hex data = expected_hash) /\
  SHA256.sha256_hex data =
    SHA256.hexdigest (fold_left SHA256.update (chunks 4096 data) SHA256.init) /\
  concat (chunks 4096 data) = data /\
  Forall (fun c => (0 < length c <= 4096)%nat) (chunks 4096 data) /\
  full_but_last 4096 (chunks 4096 data) /\
  String.length (SHA256.sha256_hex data) = 64%nat /\
  lower_hex (SHA256.sha256_hex data) = true.
Proof.
  intros H. split; [now apply verify_hash_run|].
  split; [apply String.eqb_eq|].
  split; [now rewrite <- read_loop_chunks, sha256_hex_read_loop|].
  split; [apply chunks_concat, Nat.lt_0_succ|].
  split; [apply chunks_sizes|].
  split; [apply chunks_full_but_last|].
  split.
  - apply SHA256_facts.hexdigest_length, SHA256_facts.update_chain. reflexivity.
  - apply SHA256_facts.hex_of_bytes_lower.
Qed.

Lemma verify_hash_streams_sha256_witness :
  stat (fs Scenario.with_abc) (pjoin Scenario.raw "abc.bin")
    = Some (File (bytes_of_string "abc")) /\
  (verify_hash (pjoin Scenario.raw "abc.bin") Scenario.abc_digest Scenario.with_abc).1
    = Ok true /\
  (verify_hash (pjoin Scenario.raw "abc.bin") "0000" Scenario.with_abc).1
    = Ok false.
Proof.
  split; [reflexivity|]. split.
  - rewrite (proj1 (verify_hash_streams_sha256
                      Scenario.with_abc (pjoin Scenario.raw "abc.bin")
                      (bytes_of_string "abc") Scenario.abc_digest eq_refl)).
    reflexivity.
  - rewrite (proj1 (verify_hash_streams_sha256
                      Scenario.with_abc (pjoin Scenario.raw "abc.bin")
                      (bytes_of_string "abc") "0000" eq_refl)).
    reflexivity.
Defined.

Lemma urlretrieve_ok env w url destination data m' :
  urlopen env url = HttpBody data None ->
  write_file destination data (fs w) = inr m' ->
  urlretrieve env url destination w =
    (Ok tt, mkWorld m' (kagglehub_loaded w) (trace w ++ [ENet url])).
Proof.
  intros Hu Hw. unfold urlretrieve. rewrite Hu. msimpl. rewrite Hw. msimpl.
  reflexivity.
Qed.

Lemma truthy_Some h : h <> "" -> truthy (Some h) = true.
Proof.
  intros Hne. unfold truthy. apply negb_true_iff, String.eqb_neq, Hne.
Qed.

(** C2, amended.  When the download to [destination] succeeds and a
    non-empty expected hash is supplied: the file holds the downloaded
    bytes afterwards in either case; the call returns normally if the
    SHA-256 hex digest of these bytes equals the expected hash, and raises
    [ValueError] (hash verification failed) otherwise. *)
Theorem download_file_checks_nonempty_hash env w url destination h data m' :
  h <> "" ->
  urlopen env url = HttpBody data None ->
  write_file destination data (fs w) = inr m' ->
  fs (download_file env url destination (Some h) w).2 = m' /\
  stat m' destination = Some (File data) /\
  (SHA256.sha256_hex data = h ->
   (download_file env url destination (Some h) w).1 = Ok tt) /\
  (SHA256.sha256_hex data <> h ->
   (download_file env url destination (Some h) w).1 =
     Raise (Exn ValueError ("Hash verification failed for " +:+ str destination))).
Proof.
  intros Hne Hu Hw.
  destruct (write_file_inv _ _ _ _ Hw) as [_ Hst].
  unfold download_file. rewrite (truthy_Some h Hne). cbn [default].
  msimpl. erewrite urlretrieve_ok; [| exact Hu | exact Hw].
  msimpl.
  rewrite (verify_hash_run _ destination data h) by exact Hst.
  destruct (String.eqb_spec (SHA256.sha256_hex data) h) as [Heq|Hneq];
    msimpl; repeat split; try tauto; try reflexivity.
Qed.

Lemma download_file_checks_nonempty_hash_witness :
  Scenario.abc_digest <> "" /\
  (download_file Scenario.serving_abc "https://example.org/abc"
     (pjoin Scenario.raw "abc.bin") (Some Scenario.abc_digest)
     Scenario.empty_root).1 = Ok tt /\
  (download_file Scenario.serving_abc "https://example.org/abc"
     (pjoin Scenario.raw "abc.bin") (Some "0000")
     Scenario.empty_root).1 =
    Raise (Exn ValueError "Hash verification failed for /repo/data/raw/abc.bin").
Proof.
  split; [discriminate|]. split.
  - refine (proj1 (proj2 (proj2 (download_file_checks_nonempty_hash
             Scenario.serving_abc Scenario.empty_root "https://example.org/abc"
             (pjoin Scenario.raw "abc.bin") Scenario.abc_digest
             (bytes_of_string "abc") _ _ eq_refl eq_refl))) _);
      [discriminate | reflexivity].
  - refine (proj2 (proj2 (proj2 (download_file_checks_nonempty_hash
             Scenario.serving_abc Scenario.empty_root "https://example.org/abc"
             (pjoin Scenario.raw "abc.bin") "0000"
             (bytes_of_string "abc") _ _ eq_refl eq_refl))) _);
      [discriminate | vm_compute; discriminate].
Defined.

(** C2, as worded.  With the empty string supplied as expected hash the
    digest differs from it, yet [download_file] returns normally: the
    guard [if expected_hash:] takes the empty string for no hash. *)
Lemma fetch_checks_every_supplied_hash_fails :
  ~ fetch_checks_every_supplied_hash.
Proof.
  intros H.
  destruct (H Scenario.serving_abc Scenario.empty_root "https://example.org/abc"
              (pjoin Scenario.raw "abc.bin") "" (bytes_of_string "abc")
              _ eq_refl eq_refl) as [_ Hraise].
  destruct Hraise as [[msg Hmsg] _]; [vm_compute; discriminate|].
  vm_compute in Hmsg. discriminate.
Qed.

(** ** Archive extraction *)

Lemma tar_suffix_not_zip s :
  s ∈ [".tar"; ".gz"; ".tgz"] -> String.eqb s ".zip" = false.
Proof.
  rewrite !elem_of_cons, elem_of_nil. intros [-> | [-> | [-> | []]]]; reflexivity.
Qed.

(** C4, amended.  [extract_archive] dispatches on the lower-cased
    extension: [.zip] selects zip extraction, [.tar], [.gz] and [.tgz]
    select tar extraction, and every other extension raises [ValueError]
    (unsupported archive format) after the progress message, with the
    filesystem as it was. *)
Theorem extract_archive_dispatch env archive_path extract_to w :
  (lower (suffix archive_path) = ".zip" ->
   extract_archive env archive_path extract_to w =
     extract_with (zip_extractall env archive_path extract_to)
                  archive_path extract_to w) /\
  (lower (suffix archive_path) ∈ [".tar"; ".gz"; ".tgz"] ->
   extract_archive env archive_path extract_to w =
     extract_with (tar_extractall env archive_path extract_to)
                  archive_path extract_to w) /\
  (lower (suffix archive_path) ∉ [".zip"; ".tar"; ".gz"; ".tgz"] ->
   extract_archive env archive_path extract_to w =
     (Raise (Exn ValueError ("Unsupported archive format: " +:+ suffix archive_path)),
      log w [ECall "extract_archive";
             EPrint ("Extracting " +:+ str archive_path +:+ "...")]) /\
   fs (extract_archive env archive_path extract_to w).2 = fs w).
Proof.
  unfold extract_archive, extract_with. split; [|split].
  - intros ->. reflexivity.
  - intros Hin. rewrite (tar_suffix_not_zip _ Hin).
    now rewrite (bool_decide_eq_true_2 _ Hin).
  - intros Hnot.
    destruct (String.eqb_spec (lower (suffix archive_path)) ".zip") as [Heq|_].
    { exfalso. apply Hnot. rewrite Heq. apply list_elem_of_here. }
    rewrite bool_decide_eq_false_2
      by (intros Hin; apply Hnot; now apply list_elem_of_further).
    msimpl. now rewrite log_log.
Qed.

Lemma extract_archive_dispatch_witness :
  lower (suffix (pjoin Scenario.raw "DATA.ZIP")) = ".zip" /\
  (lower (suffix (pjoin Scenario.raw "set.tar.gz")) ∈ [".tar"; ".gz"; ".tgz"]) /\
  (lower (suffix (pjoin Scenario.raw "set.7z")) ∉ [".zip"; ".tar"; ".gz"; ".tgz"]) /\
  extract_archive Scenario.serving_zip (pjoin Scenario.raw "DATA.ZIP")
      Scenario.raw Scenario.upper_zip =
    extract_with (zip_extractall Scenario.serving_zip
                    (pjoin Scenario.raw "DATA.ZIP") Scenario.raw)
      (pjoin Scenario.raw "DATA.ZIP") Scenario.raw Scenario.upper_zip /\
  extract_archive Scenario.serving_zip (pjoin Scenario.raw "set.tar.gz")
      Scenario.raw Scenario.upper_zip =
    extract_with (tar_extractall Scenario.serving_zip
                    (pjoin Scenario.raw "set.tar.gz") Scenario.raw)
      (pjoin Scenario.raw "set.tar.gz") Scenario.raw Scenario.upper_zip /\
  fs (extract_archive Scenario.serving_zip (pjoin Scenario.raw "set.7z")
        Scenario.raw Scenario.upper_zip).2 = fs Scenario.upper_zip.
Proof.
  assert (H7z : lower (suffix (pjoin Scenario.raw "set.7z"))
                  ∉ [".zip"; ".tar"; ".gz"; ".tgz"]).
  { apply (bool_decide_unpack _). vm_compute. exact I. }
  assert (Hgz : lower (suffix (pjoin Scenario.raw "set.tar.gz"))
                  ∈ [".tar"; ".gz"; ".tgz"]).
  { apply (bool_decide_unpack _). vm_compute. exact I. }
  split; [reflexivity|]. split; [exact Hgz|]. split; [exact H7z|].
  split; [|split].
  - exact (proj1 (extract_archive_dispatch Scenario.serving_zip
                    (pjoin Scenario.raw "DATA.ZIP") Scenario.raw
                    Scenario.upper_zip) eq_refl).
  - exact (proj1 (proj2 (extract_archive_dispatch Scenario.serving_zip
                    (pjoin Scenario.raw "set.tar.gz") Scenario.raw
                    Scenario.upper_zip)) Hgz).
  - exact (proj2 (proj2 (proj2 (extract_archive_dispatch Scenario.serving_zip
                    (pjoin Scenario.raw "set.7z") Scenario.raw
                    Scenario.upper_zip)) H7z)).
Defined.

(** C4, as worded.  [DATA.ZIP] has the extension [.ZIP], which is none of
    [.zip], [.tar], [.gz], [.tgz]; [extract_archive] nevertheless unpacks
    it as a zip archive and returns normally. *)
Lemma extract_dispatch_on_exact_extension_fails :
  ~ extract_dispatch_on_exact_extension.
Proof.
  intros H.
  destruct (H Scenario.serving_zip (pjoin Scenario.raw "DATA.ZIP")
              Scenario.raw Scenario.upper_zip) as (_ & _ & Hother).
  destruct Hother as [[msg Hmsg] _].
  - apply (bool_decide_unpack _). vm_compute. exact I.
  - vm_compute in Hmsg. discriminate.
Qed.

(** ** The README *)

Lemma parent_pjoin p c : parent (pjoin p c) = p.
Proof. apply removelast_last. Qed.

Lemma is_dir_stat m p : is_dir m p = true -> stat m p = Some Dir.
Proof. unfold is_dir. now destruct (stat m p) as [[|?]|]. Qed.

Lemma makedirs_from_is_dir rest : forall base m m',
  stat m base = Some Dir ->
  makedirs_from base rest m = inr m' ->
  is_dir m' (base ++ rest) = true.
Proof.
  induction rest as [|c rest IH]; intros base m m' Hbase Hmk.
  - injection Hmk as <-. rewrite app_nil_r. unfold is_dir. now rewrite Hbase.
  - cbn [makedirs_from] in Hmk.
    replace (base ++ c :: rest) with (pjoin base c ++ rest)
      by (unfold pjoin; now rewrite <- app_assoc).
    destruct (m !! pjoin base c) as [[|d]|] eqn:Hq; [| discriminate |].
    + apply (IH _ m); [now rewrite stat_pjoin | exact Hmk].
    + apply (IH _ (<[pjoin base c := Dir]> m)); [|exact Hmk].
      rewrite stat_pjoin. apply lookup_insert_eq.
Qed.

(** [__init__] leaves the raw-data root as a directory. *)
Lemma init_creates_root env w w' :
  __init__ env w = (Ok tt, w') -> is_dir (fs w') (data_dir env) = true.
Proof.
  unfold __init__. msimpl.
  destruct (makedirs (data_dir env) (fs w)) as [e|m'] eqn:Hmk; msimpl;
    [discriminate|].
  intros [= <-]. cbn [fs].
  now apply (makedirs_from_is_dir (data_dir env) [] (fs w)).
Qed.

(** C8. With the raw-data root in place, [create_readme] writes the fixed
    documentation text to [README.md] whether or not a file of that name
    is there and whatever it held: no existence test guards the write.
    Nothing else changes. *)
Theorem create_readme_overwrites env w :
  is_dir (fs w) (data_dir env) = true ->
  is_dir (fs w) (pjoin (data_dir env) "README.md") = false ->
  create_readme env w =
    (Ok tt,
     log (with_node w (pjoin (data_dir env) "README.md")
            (File (bytes_of_string readme_content)))
         [ECall "create_readme"; ERet "create_readme"]).
Proof.
  intros Hroot Hfile. unfold create_readme. msimpl.
  unfold write_file. rewrite parent_pjoin, (is_dir_stat _ _ Hroot).
  unfold is_dir in Hfile.
  destruct (stat (fs w) (pjoin (data_dir env) "README.md")) as [[|old]|];
    try discriminate; msimpl; unfold with_node, log;
    cbn [fs trace kagglehub_loaded]; now rewrite <- app_assoc.
Qed.

Lemma create_readme_overwrites_witness :
  is_dir (fs Scenario.stale_readme) (data_dir Scenario.offline) = true /\
  is_dir (fs Scenario.stale_readme)
         (pjoin (data_dir Scenario.offline) "README.md") = false /\
  fs Scenario.stale_readme !! pjoin Scenario.raw "README.md"
    = Some (File (bytes_of_string "old notes")) /\
  fs (create_readme Scenario.offline Scenario.stale_readme).2
    !! pjoin Scenario.raw "README.md"
    = Some (File (bytes_of_string readme_content)).
Proof.
  split; [reflexivity|]. split; [reflexivity|]. split; [reflexivity|].
  rewrite (create_readme_overwrites Scenario.offline Scenario.stale_readme
             eq_refl eq_refl).
  reflexivity.
Defined.

(** ** The direct dataset, end to end *)

(** When the [try] block of [download_gtsdb] completes, the temporary
    archive is gone. *)
Lemma gtsdb_try_removes_archive env filepath w w' :
  gtsdb_try env filepath w = (Ok tt, w') -> fs w' !! filepath = None.
Proof.
  unfold gtsdb_try. msimpl.
  destruct (download_file env gtsdb_url filepath None _) as [[[]|e] w1]; [|discriminate].
  destruct (extract_archive env filepath (data_dir env) w1) as [[[]|e] w2]; [|discriminate].
  destruct (unlink filepath (fs w2)) as [e|m] eqn:Hu; msimpl; [discriminate|].
  intros [= <-]. cbn [fs].
  unfold unlink in Hu. destruct (stat (fs w2) filepath) as [[|d]|]; try discriminate.
  injection Hu as <-. apply lookup_delete_eq.
Qed.

(** C6, evaluated.  Empty raw-data root, the URL serves a zip whose only
    member is [a.txt]: the sync succeeds and the temporary archive is
    gone, but the member is extracted to [a.txt] directly under the
    raw-data root; neither [GTSDB/a.txt] nor [GTSDB] exists. *)
Theorem gtsdb_scenario_extracts_into_root :
  (download_gtsdb Scenario.serving_zip Scenario.empty_root).1 = Ok tt /\
  fs (download_gtsdb Scenario.serving_zip Scenario.empty_root).2
    !! pjoin Scenario.raw "FullIJCNN2013.zip" = None /\
  fs (download_gtsdb Scenario.serving_zip Scenario.empty_root).2
    !! pjoin Scenario.raw "a.txt" = Some (File Scenario.a_txt) /\
  fs (download_gtsdb Scenario.serving_zip Scenario.empty_root).2
    !! pjoin (pjoin Scenario.raw "GTSDB") "a.txt" = None /\
  fs (download_gtsdb Scenario.serving_zip Scenario.empty_root).2
    !! pjoin Scenario.raw "GTSDB" = None.
Proof. vm_compute. repeat split. Qed.

(** * What a computation may emit *)

Section Emits.

Context (P : event -> Prop).

Lemma emits_ret {A} (a : A) : emits P (ret a).
Proof. intros w. exists []. split; [now rewrite app_nil_r | constructor]. Qed.

Lemma emits_raise {A} e : emits P (@raise A e).
Proof. intros w. exists []. split; [now rewrite app_nil_r | constructor]. Qed.

Lemma emits_emit e : P e -> emits P (emit e).
Proof. intros He w. exists [e]. split; [reflexivity | now repeat constructor]. Qed.

Lemma emits_print s : P (EPrint s) -> emits P (print s).
Proof. apply emits_emit. Qed.

Lemma emits_bind {A B} (m : M A) (k : A -> M B) :
  emits P m -> (forall a, emits P (k a)) -> emits P (bind m k).
Proof.
  intros Hm Hk w. destruct (Hm w) as (t1 & E1 & F1). unfold bind.
  destruct (m w) as [[a|e] w1]; cbn [fst snd] in *.
  - destruct (Hk a w1) as (t2 & E2 & F2). exists (t1 ++ t2).
    split; [now rewrite E2, E1, app_assoc | now apply Forall_app].
  - now exists t1.
Qed.

Lemma emits_try {A} (body : M A) catches handler :
  emits P body -> (forall e, emits P (handler e)) ->
  emits P (try_except body catches handler).
Proof.
  intros Hm Hk w. destruct (Hm w) as (t1 & E1 & F1). unfold try_except.
  destruct (body w) as [[a|e] w1]; cbn [fst snd] in *; [now exists t1|].
  destruct (catches e); [|now exists t1].
  destruct (Hk e w1) as (t2 & E2 & F2). exists (t1 ++ t2).
  split; [now rewrite E2, E1, app_assoc | now apply Forall_app].
Qed.

Lemma emits_get_fs : emits P get_fs.
Proof. intros w. exists []. split; [now rewrite app_nil_r | constructor]. Qed.

Lemma emits_put_fs m : emits P (put_fs m).
Proof. intros w. exists []. split; [now rewrite app_nil_r | constructor]. Qed.

Lemma emits_fs_op op : emits P (fs_op op).
Proof.
  unfold fs_op. apply emits_bind; [apply emits_get_fs|]. intros m.
  destruct (op m); [apply emits_raise | apply emits_put_fs].
Qed.

Lemma emits_read_file p : emits P (read_file p).
Proof.
  unfold read_file. apply emits_bind; [apply emits_get_fs|]. intros m.
  destruct (stat m p) as [[|d]|]; first [apply emits_raise | apply emits_ret].
Qed.

Lemma emits_method {A} f (body : M A) :
  P (ECall f) -> P (ERet f) -> emits P body -> emits P (method f body).
Proof.
  intros Hc Hr Hb. unfold method.
  apply emits_bind; [now apply emits_emit|]. intros _.
  apply emits_bind; [exact Hb|]. intros r.
  apply emits_bind; [now apply emits_emit|]. intros _. apply emits_ret.
Qed.

Lemma emits_urlretrieve env url destination :
  P (ENet url) -> emits P (urlretrieve env url destination).
Proof.
  intros Hn. unfold urlretrieve.
  apply emits_bind; [now apply emits_emit|]. intros _.
  destruct (urlopen env url) as [e|data [e|]]; [apply emits_raise| |].
  - apply emits_bind; [apply emits_fs_op|]. intros _. apply emits_raise.
  - apply emits_bind; [apply emits_fs_op|]. intros _. apply emits_ret.
Qed.

Lemma emits_import_kagglehub env site :
  P (EImport site) -> emits P (import_kagglehub env site).
Proof.
  intros Hi w. unfold import_kagglehub.
  destruct (kagglehub_loaded w).
  - exists []. split; [now rewrite app_nil_r | constructor].
  - exists [EImport site].
    split; [now destruct (import_outcome env site) | now repeat constructor].
Qed.

Lemma emits_check_call env argv :
  P (EProc argv) -> emits P (check_call env argv).
Proof.
  intros Hp. unfold check_call.
  apply emits_bind; [now apply emits_emit|]. intros _.
  apply emits_bind; [apply emits_get_fs|]. intros m. cbv zeta.
  apply emits_bind; [apply emits_put_fs|]. intros _.
  destruct (check_call_outcome env argv m).1; [apply emits_raise | apply emits_ret].
Qed.

Lemma emits_dataset_download env id :
  P (EHub id) -> emits P (dataset_download env id).
Proof.
  intros Hp. unfold dataset_download.
  apply emits_bind; [now apply emits_emit|]. intros _.
  apply emits_bind; [apply emits_get_fs|]. intros m. cbv zeta.
  apply emits_bind; [apply emits_put_fs|]. intros _.
  destruct (dataset_download_outcome env id m).1; [apply emits_raise | apply emits_ret].
Qed.

Lemma emits_zip_extractall env archive_path extract_to :
  emits P (zip_extractall env archive_path extract_to).
Proof.
  unfold zip_extractall. apply emits_bind; [apply emits_read_file|]. intros data.
  destruct (zip_members env data) as [l|]; [|apply emits_raise].
  apply emits_bind; [apply emits_get_fs|]. intros m. cbv zeta.
  apply emits_bind; [apply emits_put_fs|]. intros _.
  destruct (zip_extract env l extract_to m).1; [apply emits_raise | apply emits_ret].
Qed.

Lemma emits_tar_extractall env archive_path extract_to :
  emits P (tar_extractall env archive_path extract_to).
Proof.
  unfold tar_extractall. apply emits_bind; [apply emits_read_file|]. intros data.
  destruct (tar_members env data) as [l|]; [|apply emits_raise].
  apply emits_bind; [apply emits_get_fs|]. intros m. cbv zeta.
  apply emits_bind; [apply emits_put_fs|]. intros _.
  destruct (tar_extract env l extract_to m).1; [apply emits_raise | apply emits_ret].
Qed.

End Emits.

(** One step of the decomposition of a computation into what it emits;
    the side conditions on single events are left to [leaf]. *)
Ltac emits_step leaf :=
  lazymatch goal with
  | |- emits _ (bind _ _) => apply emits_bind; [|intros ?]
  | |- emits _ (ret _) => apply emits_ret
  | |- emits _ (raise _) => apply emits_raise
  | |- emits _ (print _) => apply emits_print; leaf
  | |- emits _ (emit _) => apply emits_emit; leaf
  | |- emits _ (try_except _ _ _) => apply emits_try; [|intros ?]
  | |- emits _ (method _ _) => apply emits_method; [leaf | leaf |]
  | |- emits _ (fs_op _) => apply emits_fs_op
  | |- emits _ get_fs => apply emits_get_fs
  | |- emits _ (read_file _) => apply emits_read_file
  | |- emits _ (urlretrieve _ _ _) => apply emits_urlretrieve; leaf
  | |- emits _ (import_kagglehub _ _) => apply emits_import_kagglehub; leaf
  | |- emits _ (check_call _ _) => apply emits_check_call; leaf
  | |- emits _ (dataset_download _ _) => apply emits_dataset_download; leaf
  | |- emits _ (zip_extractall _ _ _) => apply emits_zip_extractall
  | |- emits _ (tar_extractall _ _ _) => apply emits_tar_extractall
  | |- emits _ (if ?b then _ else _) => destruct b
  | |- emits _ (match ?x with _ => _ end) => destruct x
  end.

Ltac quiet_leaf := reflexivity.
Ltac emits_quiet := repeat (emits_step quiet_leaf).

(** ** Nothing below the four steps looks like a step *)

Lemma verify_hash_quiet filepath expected_hash :
  emits quiet (verify_hash filepath expected_hash).
Proof. unfold verify_hash. cbv zeta. emits_quiet. Qed.

Lemma download_file_quiet env url destination expected_hash :
  emits quiet (download_file env url destination expected_hash).
Proof.
  unfold download_file. emits_quiet. apply verify_hash_quiet.
Qed.

Lemma extract_archive_quiet env archive_path extract_to :
  emits quiet (extract_archive env archive_path extract_to).
Proof. unfold extract_archive. emits_quiet. Qed.

Lemma gtsdb_try_quiet env filepath : emits quiet (gtsdb_try env filepath).
Proof.
  unfold gtsdb_try. emits_quiet.
  - apply download_file_quiet.
  - apply extract_archive_quiet.
Qed.

Lemma download_gtsdb_body_quiet env :
  emits quiet
    (let* m := get_fs in
     if exists_ m (pjoin (data_dir env) "GTSDB") then
       print "GTSDB already exists, skipping download."
     else
       print "=== Downloading GTSDB Dataset ===" >>
       try_except (gtsdb_try env (pjoin (data_dir env) "FullIJCNN2013.zip"))
         is_Exception gtsdb_except).
Proof. unfold gtsdb_except. emits_quiet. apply gtsdb_try_quiet. Qed.

Lemma install_kagglehub_quiet env : emits quiet (install_kagglehub env).
Proof. unfold install_kagglehub. emits_quiet. Qed.

Lemma lisa_try_quiet env lisa_dir : emits quiet (lisa_try env lisa_dir).
Proof. unfold lisa_try. emits_quiet. apply extract_archive_quiet. Qed.

Lemma download_lisa_body_quiet env :
  emits quiet
    (let* m := get_fs in
     if exists_ m (pjoin (data_dir env) "LISA") then
       print "LISA already exists, skipping download."
     else
       print "=== Downloading LISA Dataset from Kaggle ===" >>
       let* installed := install_kagglehub env in
       if negb installed then
         print "Error: Could not install kagglehub." >>
         print "Please install manually: pip install kagglehub"
       else
         try_except (lisa_try env (pjoin (data_dir env) "LISA"))
           is_Exception lisa_except).
Proof.
  unfold lisa_except. emits_quiet.
  - apply install_kagglehub_quiet.
  - apply lisa_try_quiet.
Qed.

(** * The order of the steps *)

Lemma visible_quiet t : Forall quiet t -> visible t = [].
Proof.
  induction 1 as [|e t He _ IH]; [reflexivity|].
  unfold visible in *. cbn [List.filter]. now rewrite He.
Qed.

Lemma visible_app t1 t2 : visible (t1 ++ t2) = visible t1 ++ visible t2.
Proof. apply List.filter_app. Qed.

Lemma runs_as_quiet {A} (m : M A) : emits quiet m -> runs_as m [].
Proof.
  intros Hm w. destruct (Hm w) as (t & E & F). exists t.
  split; [exact E|]. rewrite (visible_quiet t F). now destruct (m w).1.
Qed.

Lemma runs_as_emit e : top_level e = true -> runs_as (emit e) [e].
Proof.
  intros He w. exists [e]. split; [reflexivity|].
  unfold visible. cbn [emit fst List.filter]. now rewrite He.
Qed.

Lemma runs_as_bind {A B} (m : M A) (k : A -> M B) f1 f2 :
  runs_as m f1 -> (forall a, runs_as (k a) f2) -> runs_as (bind m k) (f1 ++ f2).
Proof.
  intros Hm Hk w. destruct (Hm w) as (t1 & E1 & V1). unfold bind.
  destruct (m w) as [[a|e] w1]; cbn [fst snd] in *.
  - destruct (Hk a w1) as (t2 & E2 & V2). exists (t1 ++ t2).
    split; [now rewrite E2, E1, app_assoc|].
    rewrite visible_app, V1.
    destruct (k a w1).1; [now rewrite V2 | now apply prefix_app].
  - exists t1. split; [exact E1 | now apply prefix_app_r].
Qed.

Lemma runs_as_eq {A} (m : M A) f f' : runs_as m f -> f = f' -> runs_as m f'.
Proof. now intros H <-. Qed.

(** A step: a method that is a step marker around a quiet body. *)
Lemma runs_as_step {A} f (body : M A) :
  top_level (ECall f) = true -> top_level (ERet f) = true ->
  emits quiet body -> runs_as (method f body) [ECall f; ERet f].
Proof.
  intros Hc Hr Hb. unfold method.
  eapply runs_as_eq.
  - apply runs_as_bind; [now apply runs_as_emit|]. intros _.
    apply runs_as_bind; [now apply runs_as_quiet|]. intros r.
    apply runs_as_bind; [now apply runs_as_emit|]. intros _.
    apply runs_as_quiet, emits_ret.
  - reflexivity.
Qed.

Lemma init_runs_as env : runs_as (__init__ env) [ECall "__init__"; ERet "__init__"].
Proof. apply runs_as_step; [reflexivity | reflexivity | apply emits_fs_op]. Qed.

Lemma create_readme_runs_as env :
  runs_as (create_readme env) [ECall "create_readme"; ERet "create_readme"].
Proof. apply runs_as_step; [reflexivity | reflexivity | apply emits_fs_op]. Qed.

Lemma download_gtsdb_runs_as env :
  runs_as (download_gtsdb env) [ECall "download_gtsdb"; ERet "download_gtsdb"].
Proof.
  apply runs_as_step; [reflexivity | reflexivity | apply download_gtsdb_body_quiet].
Qed.

Lemma download_lisa_runs_as env :
  runs_as (download_lisa env) [ECall "download_lisa"; ERet "download_lisa"].
Proof.
  apply runs_as_step; [reflexivity | reflexivity | apply download_lisa_body_quiet].
Qed.

Lemma runs_as_print_quiet s : quiet (EPrint s) -> runs_as (print s) [].
Proof. intros H. apply runs_as_quiet, emits_print, H. Qed.

Lemma program_runs_as env : runs_as (__init__ env >> run env) full_run.
Proof.
  eapply runs_as_eq.
  - apply runs_as_bind; [apply init_runs_as|]. intros _.
    unfold run, method.
    apply runs_as_bind; [apply runs_as_quiet, emits_emit; reflexivity|]. intros _.
    apply runs_as_bind; [|intros r; apply runs_as_bind;
                            [apply runs_as_quiet, emits_emit; reflexivity
                            |intros _; apply runs_as_quiet, emits_ret]].
    apply runs_as_bind; [apply runs_as_print_quiet; reflexivity|]. intros _.
    apply runs_as_bind; [apply runs_as_print_quiet; reflexivity|]. intros _.
    apply runs_as_bind; [apply create_readme_runs_as|]. intros _.
    apply runs_as_bind; [apply download_gtsdb_runs_as|]. intros _.
    apply runs_as_bind; [apply download_lisa_runs_as|]. intros _.
    apply runs_as_bind; [apply (runs_as_emit (EPrint final_status)); reflexivity|].
    intros _.
    apply runs_as_bind; [apply runs_as_print_quiet; reflexivity|]. intros _.
    apply runs_as_print_quiet; reflexivity.
  - reflexivity.
Qed.

Lemma main_step_events env w :
  exists t,
    trace (main env w).2 = trace w ++ t /\
    visible t `prefix_of` full_run /\
    ((main env w).1 = 0 -> visible t = full_run).
Proof.
  destruct (program_runs_as env w) as (t & E & V). unfold main.
  destruct ((__init__ env >> run env) w) as [[[]|e] w1]; cbn [fst snd] in *.
  - exists t. split; [exact E|]. rewrite V. split; [reflexivity | reflexivity].
  - destruct (is_KeyboardInterrupt e); [|destruct (is_Exception e)].
    + exists (t ++ [EPrint (nl +:+ "Download interrupted by user.")]).
      cbn [print emit snd log trace]. rewrite E, app_assoc.
      split; [reflexivity|]. rewrite visible_app.
      replace (visible [EPrint (nl +:+ "Download interrupted by user.")])
        with (@nil event) by reflexivity.
      rewrite app_nil_r. split; [exact V | discriminate].
    + exists (t ++ [EPrint ("Error: " +:+ exn_msg e)]).
      cbn [print emit snd log trace]. rewrite E, app_assoc.
      split; [reflexivity|]. rewrite visible_app.
      replace (visible [EPrint ("Error: " +:+ exn_msg e)])
        with (@nil event) by reflexivity.
      rewrite app_nil_r. split; [exact V | discriminate].
    + exists t. split; [exact E|]. split; [exact V | discriminate].
Qed.

(** ** What each step does when its turn comes *)

Ltac any_leaf := exact I.
Ltac emits_any := repeat (emits_step any_leaf).

Lemma reaches_emit_bind {A} e (k : M A) :
  emits (fun _ => True) k -> reaches e (emit e >> k).
Proof.
  intros Hk w. unfold bind, emit.
  destruct (Hk (log w [e])) as (t & E & _).
  exists [], t. rewrite E. cbn [log trace app]. now rewrite <- app_assoc.
Qed.

Lemma reaches_after_emit {A} e e0 (k : M A) :
  reaches e k -> reaches e (emit e0 >> k).
Proof.
  intros Hk w. unfold bind, emit.
  destruct (Hk (log w [e0])) as (t1 & t2 & E).
  exists (e0 :: t1), t2. rewrite E. cbn [log trace app].
  now rewrite <- app_assoc.
Qed.

Lemma reaches_bind_l {A B} e (m : M A) (k : A -> M B) :
  reaches e m -> (forall a, emits (fun _ => True) (k a)) -> reaches e (bind m k).
Proof.
  intros Hm Hk w. unfold bind. destruct (Hm w) as (t1 & t2 & E).
  destruct (m w) as [[a|x] w1]; cbn [snd] in *.
  - destruct (Hk a w1) as (t & E' & _). exists t1, (t2 ++ t).
    rewrite E', E. rewrite <- !app_assoc. reflexivity.
  - now exists t1, t2.
Qed.

Lemma reaches_try {A} e (body : M A) catches handler :
  reaches e body -> (forall x, emits (fun _ => True) (handler x)) ->
  reaches e (try_except body catches handler).
Proof.
  intros Hm Hk w. unfold try_except. destruct (Hm w) as (t1 & t2 & E).
  destruct (body w) as [[a|x] w1]; cbn [snd] in *; [now exists t1, t2|].
  destruct (catches x); [|now exists t1, t2].
  destruct (Hk x w1) as (t & E' & _). exists t1, (t2 ++ t).
  rewrite E', E. rewrite <- !app_assoc. reflexivity.
Qed.

Lemma reaches_method {A} e f (body : M A) :
  reaches e body -> reaches e (method f body).
Proof.
  intros Hb. unfold method. apply reaches_after_emit.
  apply reaches_bind_l; [exact Hb|]. intros r. emits_any.
Qed.

(** The [try] block of [download_gtsdb] always gets as far as the
    request for the archive. *)
Lemma gtsdb_try_fetches env filepath :
  reaches (ENet gtsdb_url) (gtsdb_try env filepath).
Proof.
  unfold gtsdb_try. apply reaches_after_emit, reaches_after_emit.
  apply reaches_bind_l.
  - unfold download_file. apply reaches_method, reaches_after_emit.
    apply reaches_try.
    + apply reaches_bind_l.
      * unfold urlretrieve.
        apply (reaches_emit_bind (ENet gtsdb_url)). emits_any.
      * intros _. cbn [truthy]. emits_any.
    + intros x. emits_any.
  - intros _. unfold extract_archive. emits_any.
Qed.

Lemma download_gtsdb_fetches env w :
  exists_ (fs w) (target env GTSDB) = false ->
  exists t1 t2,
    trace (download_gtsdb env w).2 = trace w ++ t1 ++ ENet gtsdb_url :: t2.
Proof.
  intros Hx. unfold target in Hx. cbn [dataset_name] in Hx.
  assert (Hrun : download_gtsdb env w =
                 method "download_gtsdb"
                   (print "=== Downloading GTSDB Dataset ===" >>
                    try_except
                      (gtsdb_try env (pjoin (data_dir env) "FullIJCNN2013.zip"))
                      is_Exception gtsdb_except) w).
  { unfold download_gtsdb, method, bind at 1 2 3, get_fs, emit.
    cbn [fs log]. unfold bind at 1 2 3, emit. cbn [fs log]. now rewrite Hx. }
  rewrite Hrun.
  apply (reaches_method (ENet gtsdb_url)), (reaches_after_emit (ENet gtsdb_url)).
  apply reaches_try; [apply gtsdb_try_fetches|].
  intros x. unfold gtsdb_except. emits_any.
Qed.

Lemma download_lisa_asks_for_client env w :
  exists_ (fs w) (target env LISA) = false ->
  exists t1 t2,
    trace (download_lisa env w).2
      = trace w ++ t1 ++ ECall "install_kagglehub" :: t2.
Proof.
  intros Hx. unfold target in Hx. cbn [dataset_name] in Hx.
  assert (Hrun : download_lisa env w =
                 method "download_lisa"
                   (print "=== Downloading LISA Dataset from Kaggle ===" >>
                    let* installed := install_kagglehub env in
                    if negb installed then
                      print "Error: Could not install kagglehub." >>
                      print "Please install manually: pip install kagglehub"
                    else
                      try_except (lisa_try env (pjoin (data_dir env) "LISA"))
                        is_Exception lisa_except) w).
  { unfold download_lisa, method, bind at 1 2 3, get_fs, emit.
    cbn [fs log]. unfold bind at 1 2 3, emit. cbn [fs log]. now rewrite Hx. }
  rewrite Hrun.
  apply (reaches_method (ECall "install_kagglehub")),
        (reaches_after_emit (ECall "install_kagglehub")).
  apply reaches_bind_l.
  - unfold install_kagglehub, method.
    apply (reaches_emit_bind (ECall "install_kagglehub")). emits_any.
  - intros installed. unfold lisa_try, lisa_except, extract_archive. emits_any.
Qed.

Lemma init_ok_inv env w w1 :
  __init__ env w = (Ok tt, w1) ->
  makedirs (data_dir env) (fs w) = inr (fs w1) /\
  trace w1 = trace w ++ [ECall "__init__"; ERet "__init__"].
Proof.
  unfold __init__. msimpl.
  destruct (makedirs (data_dir env) (fs w)) as [e|m'] eqn:Hmk; msimpl;
    [discriminate|].
  intros [= <-].
  split; [reflexivity | unfold log; cbn [trace]; norm_trace; reflexivity].
Qed.

Lemma create_readme_ok_inv env w w2 :
  create_readme env w = (Ok tt, w2) ->
  fs w2 = <[pjoin (data_dir env) "README.md"
            := File (bytes_of_string readme_content)]> (fs w).
Proof.
  unfold create_readme. msimpl.
  destruct (write_file _ _ (fs w)) as [e|m'] eqn:Hw; msimpl; [discriminate|].
  intros [= <-]. cbn [fs]. now destruct (write_file_inv _ _ _ _ Hw).
Qed.

(** A run that exits with status 0 went through the four steps, each in
    the world the one before left. *)
Lemma main_threads_steps env w :
  (main env w).1 = 0 ->
  exists w1 w2 w3 w4,
    __init__ env w = (Ok tt, w1) /\
    create_readme env
      (log w1 [ECall "run";
               EPrint "Starting dataset download process...";
               EPrint ("Data directory: " +:+ str (data_dir env))])
      = (Ok tt, w2) /\
    download_gtsdb env w2 = (Ok tt, w3) /\
    download_lisa env w3 = (Ok tt, w4) /\
    (main env w).2 =
      log w4 [EPrint final_status;
              EPrint "Note: Some datasets may require manual download.";
              EPrint "Check the README.md in the data/raw directory for details.";
              ERet "run"].
Proof.
  unfold main.
  destruct ((__init__ env >> run env) w) as [[[]|e] w'] eqn:Hprog; cbn [fst snd].
  2:{ destruct (is_KeyboardInterrupt e); [discriminate|].
      destruct (is_Exception e); discriminate. }
  intros _. revert Hprog. unfold bind at 1.
  destruct (__init__ env w) as [[[]|e] w1] eqn:Hinit; [|discriminate].
  unfold run, method. msimpl. rewrite !log_log. cbn [app].
  destruct (create_readme env _) as [[[]|e] w2] eqn:Hreadme; [|discriminate].
  destruct (download_gtsdb env w2) as [[[]|e] w3] eqn:Hg; [|discriminate].
  destruct (download_lisa env w3) as [[[]|e] w4] eqn:Hl; [|discriminate].
  msimpl. rewrite !log_log. cbn [app]. intros [= <-].
  exists w1, w2, w3, w4. repeat split; assumption || reflexivity.
Qed.

(** C7. Whatever the environment, the step events of a run come in the
    order: [__init__] entered and left (workspace), [create_readme]
    entered and left, [download_gtsdb] entered and left, [download_lisa]
    entered and left, final status message; a run that exits with status
    0 shows all of them, a run that stops shows a prefix.  In a run that
    exits with status 0 each step does its work in the world the step
    before left: [__init__] creates the raw-data root, [create_readme]
    then writes the text to [README.md], [download_gtsdb] then either
    skips (target there) or requests the archive, [download_lisa] then
    either skips or looks for the hub client, and the final status lines
    end the run. *)
Theorem main_runs_steps_in_order env w :
  (exists t,
     trace (main env w).2 = trace w ++ t /\
     visible t `prefix_of` full_run /\
     ((main env w).1 = 0 -> visible t = full_run)) /\
  ((main env w).1 = 0 ->
   exists w1 w2 w3 w4,
     (__init__ env w = (Ok tt, w1) /\
      makedirs (data_dir env) (fs w) = inr (fs w1) /\
      is_dir (fs w1) (data_dir env) = true) /\
     (create_readme env
        (log w1 [ECall "run";
                 EPrint "Starting dataset download process...";
                 EPrint ("Data directory: " +:+ str (data_dir env))])
        = (Ok tt, w2) /\
      fs w2 = <[pjoin (data_dir env) "README.md"
                := File (bytes_of_string readme_content)]> (fs w1)) /\
     (download_gtsdb env w2 = (Ok tt, w3) /\
      if exists_ (fs w2) (target env GTSDB)
      then w3 = log w2 [ECall "download_gtsdb";
                        EPrint "GTSDB already exists, skipping download.";
                        ERet "download_gtsdb"]
      else exists t1 t2, trace w3 = trace w2 ++ t1 ++ ENet gtsdb_url :: t2) /\
     (download_lisa env w3 = (Ok tt, w4) /\
      if exists_ (fs w3) (target env LISA)
      then w4 = log w3 [ECall "download_lisa";
                        EPrint "LISA already exists, skipping download.";
                        ERet "download_lisa"]
      else exists t1 t2,
             trace w4 = trace w3 ++ t1 ++ ECall "install_kagglehub" :: t2) /\
     (main env w).2 =
       log w4 [EPrint final_status;
               EPrint "Note: Some datasets may require manual download.";
               EPrint "Check the README.md in the data/raw directory for details.";
               ERet "run"]).
Proof.
  split; [apply main_step_events|].
  intros H0.
  destruct (main_threads_steps env w H0)
    as (w1 & w2 & w3 & w4 & Hinit & Hreadme & Hg & Hl & Hend).
  exists w1, w2, w3, w4.
  split; [|split; [|split; [|split]]].
  - split; [exact Hinit|].
    split; [exact (proj1 (init_ok_inv env w w1 Hinit))
           | exact (init_creates_root env w w1 Hinit)].
  - split; [exact Hreadme | exact (create_readme_ok_inv env _ w2 Hreadme)].
  - split; [exact Hg|].
    destruct (exists_ (fs w2) (target env GTSDB)) eqn:Hx.
    + pose proof (download_gtsdb_skip env w2 Hx) as Hs. congruence.
    + pose proof (download_gtsdb_fetches env w2 Hx) as Hf.
      now rewrite Hg in Hf.
  - split; [exact Hl|].
    destruct (exists_ (fs w3) (target env LISA)) eqn:Hx.
    + pose proof (download_lisa_skip env w3 Hx) as Hs. congruence.
    + pose proof (download_lisa_asks_for_client env w3 Hx) as Hf.
      now rewrite Hl in Hf.
  - exact Hend.
Qed.

Lemma main_runs_steps_in_order_witness :
  (main Scenario.offline Scenario.empty_root).1 = 0 /\
  (exists t,
     trace (main Scenario.offline Scenario.empty_root).2
       = trace Scenario.empty_root ++ t /\
     visible t = full_run) /\
  exists w1 w2,
    __init__ Scenario.offline Scenario.empty_root = (Ok tt, w1) /\
    is_dir (fs w1) (data_dir Scenario.offline) = true /\
    fs w2 = <[pjoin (data_dir Scenario.offline) "README.md"
              := File (bytes_of_string readme_content)]> (fs w1) /\
    exists w3, download_gtsdb Scenario.offline w2 = (Ok tt, w3).
Proof.
  split; [reflexivity|].
  destruct (main_runs_steps_in_order Scenario.offline Scenario.empty_root)
    as [(t & E & _ & V) Hsteps].
  split; [exists t; split; [exact E | apply V; reflexivity]|].
  destruct (Hsteps eq_refl)
    as (w1 & w2 & w3 & w4 & (Hi & _ & Hd) & (_ & Hr) & (Hg & _) & _).
  exists w1, w2. split; [exact Hi|]. split; [exact Hd|]. split; [exact Hr|].
  now exists w3.
Defined.

(** * The direct dataset is never verified *)

Ltac other_leaf := cbv beta; discriminate.
Ltac emits_other := repeat (emits_step other_leaf).

Lemma download_file_None_no_verify env url destination :
  emits (fun e => e <> ECall "verify_hash") (download_file env url destination None).
Proof. unfold download_file. cbn [truthy]. emits_other. Qed.

Lemma download_gtsdb_no_verify env :
  emits (fun e => e <> ECall "verify_hash") (download_gtsdb env).
Proof.
  unfold download_gtsdb, gtsdb_try, gtsdb_except, extract_archive. cbv zeta.
  emits_other. apply download_file_None_no_verify.
Qed.

(** C9. [download_gtsdb] calls [download_file] without an expected hash,
    and a [download_file] without expected hash never enters
    [verify_hash]: no run of [download_gtsdb] has a [verify_hash] call on
    its trace. *)
Theorem download_gtsdb_never_verifies env w :
  (forall url destination w0, exists t,
     trace (download_file env url destination None w0).2 = trace w0 ++ t /\
     ECall "verify_hash" ∉ t) /\
  exists t,
    trace (download_gtsdb env w).2 = trace w ++ t /\
    ECall "verify_hash" ∉ t.
Proof.
  split.
  - intros url destination w0.
    destruct (download_file_None_no_verify env url destination w0) as (t & E & F).
    exists t. split; [exact E|]. intros Hin.
    now apply (proj1 (Forall_forall _ _) F _ Hin).
  - destruct (download_gtsdb_no_verify env w) as (t & E & F).
    exists t. split; [exact E|]. intros Hin.
    now apply (proj1 (Forall_forall _ _) F _ Hin).
Qed.

(** * Which failures leave a sync, and the exit status *)

Section RaisesOnly.

Context (Q : exn -> Prop).

Lemma raises_only_ret {A} (a : A) : raises_only Q (ret a).
Proof. intros w e. discriminate. Qed.

Lemma raises_only_emit ev : raises_only Q (emit ev).
Proof. intros w e. discriminate. Qed.

Lemma raises_only_print s : raises_only Q (print s).
Proof. apply raises_only_emit. Qed.

Lemma raises_only_raise {A} e : Q e -> raises_only Q (@raise A e).
Proof. intros He w e' [= <-]. exact He. Qed.

Lemma raises_only_bind {A B} (m : M A) (k : A -> M B) :
  raises_only Q m -> (forall a, raises_only Q (k a)) -> raises_only Q (bind m k).
Proof.
  intros Hm Hk w e. unfold bind. specialize (Hm w).
  destruct (m w) as [[a|e0] w1]; cbn [fst] in *.
  - apply Hk.
  - intros [= <-]. now apply Hm.
Qed.

(** A handler guards [body]: what it does not catch must satisfy [Q],
    and so must whatever the handler itself raises. *)
Lemma raises_only_try {A} (Q0 : exn -> Prop) (body : M A) catches handler :
  raises_only Q0 body ->
  (forall e, Q0 e -> catches e = false -> Q e) ->
  (forall e, raises_only Q (handler e)) ->
  raises_only Q (try_except body catches handler).
Proof.
  intros Hb Hq Hh w e. unfold try_except. specialize (Hb w).
  destruct (body w) as [[a|e0] w1]; cbn [fst] in *; [discriminate|].
  destruct (catches e0) eqn:Hc.
  - apply Hh.
  - intros [= <-]. apply Hq; [now apply Hb | exact Hc].
Qed.

Lemma raises_only_method {A} f (body : M A) :
  raises_only Q body -> raises_only Q (method f body).
Proof.
  intros Hb. unfold method.
  apply raises_only_bind; [apply raises_only_emit|]. intros _.
  apply raises_only_bind; [exact Hb|]. intros r.
  apply raises_only_bind; [apply raises_only_emit | intros _; apply raises_only_ret].
Qed.

Lemma raises_only_get_fs : raises_only Q get_fs.
Proof. intros w e. discriminate. Qed.

End RaisesOnly.

Lemma raises_only_any {A} (m : M A) : raises_only (fun _ => True) m.
Proof. intros w e _. exact I. Qed.

Lemma raises_only_weaken {A} (Q Q' : exn -> Prop) (m : M A) :
  raises_only Q m -> (forall e, Q e -> Q' e) -> raises_only Q' m.
Proof. intros Hm Hq w e He. apply Hq, (Hm w e He). Qed.

Lemma raises_only_fs_op op :
  raises_only (fun e => exists m, op m = inl e) (fs_op op).
Proof.
  intros w e. unfold fs_op. msimpl.
  destruct (op (fs w)) as [e0|m'] eqn:Hop; msimpl; [|discriminate].
  intros [= <-]. now exists (fs w).
Qed.

(** A [try] with [except Exception] whose handler only prints lets
    nothing but interrupts through. *)
Lemma raises_only_guarded {A} (body : M A) handler :
  (forall e, raises_only (fun e => is_Exception e = false) (handler e)) ->
  raises_only (fun e => is_Exception e = false)
    (try_except body is_Exception handler).
Proof.
  intros Hh. apply (raises_only_try _ (fun _ => True)); auto using raises_only_any.
Qed.

Ltac raises_step :=
  lazymatch goal with
  | |- raises_only _ (bind _ _) => apply raises_only_bind; [|intros ?]
  | |- raises_only _ (ret _) => apply raises_only_ret
  | |- raises_only _ (print _) => apply raises_only_print
  | |- raises_only _ (emit _) => apply raises_only_emit
  | |- raises_only _ (method _ _) => apply raises_only_method
  | |- raises_only _ get_fs => apply raises_only_get_fs
  | |- raises_only _ (if ?b then _ else _) => destruct b
  end.

Lemma download_gtsdb_raises_only env :
  raises_only (fun e => is_Exception e = false) (download_gtsdb env).
Proof.
  unfold download_gtsdb. cbv zeta. repeat raises_step.
  apply raises_only_guarded. intros e. unfold gtsdb_except. repeat raises_step.
Qed.

Lemma import_probe_raises_only env :
  raises_only (fun e => import_outcome env ImportProbe = Some e)
    (import_kagglehub env ImportProbe >> ret true).
Proof.
  intros w e. unfold bind, import_kagglehub, ret.
  destruct (kagglehub_loaded w); [discriminate|].
  destruct (import_outcome env ImportProbe) as [e0|]; [|discriminate].
  now intros [= <-].
Qed.

Lemma install_kagglehub_raises_only env :
  raises_only (fun e => is_Exception e = false \/ probe_error env e)
    (install_kagglehub env).
Proof.
  unfold install_kagglehub. apply raises_only_method.
  apply (raises_only_try _ _ _ _ _ (import_probe_raises_only env)).
  - intros e Hp Hc. right. now split.
  - intros _. repeat raises_step.
    apply (raises_only_try _ (fun _ => True)); [apply raises_only_any | (intros ? _ Hc; left; exact Hc) |].
    intros e1. repeat raises_step.
    apply (raises_only_try _ (fun _ => True)); [apply raises_only_any | (intros ? _ Hc; left; exact Hc) |].
    intros e2. repeat raises_step.
Qed.

Lemma download_lisa_raises_only env :
  raises_only (fun e => is_Exception e = false \/ probe_error env e)
    (download_lisa env).
Proof.
  unfold download_lisa. cbv zeta. repeat raises_step.
  - apply install_kagglehub_raises_only.
  - apply (raises_only_try _ (fun _ => True)); [apply raises_only_any | (intros ? _ Hc; left; exact Hc) |].
    intros e. unfold lisa_except. repeat raises_step.
Qed.

Lemma program_raises_only env :
  raises_only
    (fun e => is_Exception e = false \/ setup_error env e \/ probe_error env e)
    (__init__ env >> run env).
Proof.
  unfold __init__, run, create_readme. cbv zeta. repeat raises_step.
  - eapply raises_only_weaken; [apply raises_only_fs_op|].
    intros e He. right. left. left. exact He.
  - eapply raises_only_weaken; [apply raises_only_fs_op|].
    intros e He. right. left. right. exact He.
  - eapply raises_only_weaken; [apply download_gtsdb_raises_only|].
    intros e He. left. exact He.
  - eapply raises_only_weaken; [apply download_lisa_raises_only|].
    intros e [He|He]; [left | right; right]; exact He.
Qed.

Lemma main_exit_status env w :
  match ((__init__ env >> run env) w).1 with
  | Ok _ => (main env w).1 = 0
  | Raise _ => (main env w).1 = 1
  end.
Proof.
  unfold main. destruct ((__init__ env >> run env) w) as [[[]|e] w1]; cbn [fst].
  - reflexivity.
  - destruct (is_KeyboardInterrupt e); [reflexivity|].
    now destruct (is_Exception e).
Qed.

(** A failure in the [try] block of [download_gtsdb]: caught, reported
    with the manual download address, and the method returns. *)
Lemma gtsdb_soft_failure env w e w1 :
  exists_ (fs w) (target env GTSDB) = false ->
  gtsdb_try env (pjoin (data_dir env) "FullIJCNN2013.zip")
    (log w [ECall "download_gtsdb"; EPrint "=== Downloading GTSDB Dataset ==="])
    = (Raise e, w1) ->
  is_Exception e = true ->
  download_gtsdb env w =
    (Ok tt, log w1 [EPrint ("Error downloading GTSDB: " +:+ exn_msg e);
                    EPrint "You can manually download from:";
                    EPrint gtsdb_manual_url;
                    ERet "download_gtsdb"]).
Proof.
  intros Hx Ht He. unfold download_gtsdb. msimpl.
  unfold target in Hx. cbn [dataset_name] in Hx. rewrite Hx. msimpl.
  rewrite log_log. cbn [app]. rewrite Ht, He. unfold gtsdb_except. msimpl.
  now rewrite !log_log.
Qed.

(** The same for the [try] block of [download_lisa]. *)
Lemma lisa_soft_failure env w e w0 w1 :
  exists_ (fs w) (target env LISA) = false ->
  install_kagglehub env
    (log w [ECall "download_lisa";
            EPrint "=== Downloading LISA Dataset from Kaggle ==="])
    = (Ok true, w0) ->
  lisa_try env (pjoin (data_dir env) "LISA") w0 = (Raise e, w1) ->
  is_Exception e = true ->
  download_lisa env w =
    (Ok tt,
     log w1 [EPrint ("Error downloading LISA dataset: " +:+ exn_msg e);
             EPrint "You can manually download from:";
             EPrint "https://www.kaggle.com/datasets/mbornoe/lisa-traffic-light-dataset";
             EPrint "Or use: kagglehub.dataset_download('mbornoe/lisa-traffic-light-dataset')";
             ERet "download_lisa"]).
Proof.
  intros Hx Hi Ht He. unfold download_lisa. msimpl.
  unfold target in Hx. cbn [dataset_name] in Hx. rewrite Hx. msimpl.
  rewrite log_log. cbn [app]. rewrite Hi. cbn [negb]. rewrite Ht, He.
  unfold lisa_except. msimpl. now rewrite !log_log.
Qed.

(** The hub client cannot be installed: reported with the manual
    installation command, and the method returns. *)
Lemma lisa_install_failure env w w0 :
  exists_ (fs w) (target env LISA) = false ->
  install_kagglehub env
    (log w [ECall "download_lisa";
            EPrint "=== Downloading LISA Dataset from Kaggle ==="])
    = (Ok false, w0) ->
  download_lisa env w =
    (Ok tt,
     log w0 [EPrint "Error: Could not install kagglehub.";
             EPrint "Please install manually: pip install kagglehub";
             ERet "download_lisa"]).
Proof.
  intros Hx Hi. unfold download_lisa. msimpl.
  unfold target in Hx. cbn [dataset_name] in Hx. rewrite Hx. msimpl.
  rewrite log_log. cbn [app]. rewrite Hi. cbn [negb]. msimpl.
  now rewrite !log_log.
Qed.

(** C3, amended.  An [Exception] raised in the [try] block of a dataset
    sync is caught there, the manual fallback is printed and the method
    returns, so that the run goes on with whatever follows; a hub client
    that cannot be installed is reported in the same way.  Only a user
    interrupt leaves [download_gtsdb]; only a user interrupt or an error
    of the first [import kagglehub] other than [ImportError] (which is
    raised outside the [try] block) leaves [download_lisa].  The exit
    status is 0 when the run returns and 1 otherwise, and it is 1 only
    after a user interrupt, a failure of the workspace setup or of the
    README, or such an import error. *)
Theorem failures_contained_in_try_blocks env w :
  raises_only (fun e => is_Exception e = false) (download_gtsdb env) /\
  raises_only (fun e => is_Exception e = false \/ probe_error env e)
    (download_lisa env) /\
  (forall e w1 (k : unit -> M unit),
     exists_ (fs w) (target env GTSDB) = false ->
     gtsdb_try env (pjoin (data_dir env) "FullIJCNN2013.zip")
       (log w [ECall "download_gtsdb"; EPrint "=== Downloading GTSDB Dataset ==="])
       = (Raise e, w1) ->
     is_Exception e = true ->
     bind (download_gtsdb env) k w =
       k tt (log w1 [EPrint ("Error downloading GTSDB: " +:+ exn_msg e);
                     EPrint "You can manually download from:";
                     EPrint gtsdb_manual_url;
                     ERet "download_gtsdb"])) /\
  (forall e w0 w1 (k : unit -> M unit),
     exists_ (fs w) (target env LISA) = false ->
     install_kagglehub env
       (log w [ECall "download_lisa";
               EPrint "=== Downloading LISA Dataset from Kaggle ==="])
       = (Ok true, w0) ->
     lisa_try env (pjoin (data_dir env) "LISA") w0 = (Raise e, w1) ->
     is_Exception e = true ->
     bind (download_lisa env) k w =
       k tt
         (log w1
            [EPrint ("Error downloading LISA dataset: " +:+ exn_msg e);
             EPrint "You can manually download from:";
             EPrint "https://www.kaggle.com/datasets/mbornoe/lisa-traffic-light-dataset";
             EPrint "Or use: kagglehub.dataset_download('mbornoe/lisa-traffic-light-dataset')";
             ERet "download_lisa"])) /\
  (forall w0 (k : unit -> M unit),
     exists_ (fs w) (target env LISA) = false ->
     install_kagglehub env
       (log w [ECall "download_lisa";
               EPrint "=== Downloading LISA Dataset from Kaggle ==="])
       = (Ok false, w0) ->
     bind (download_lisa env) k w =
       k tt (log w0 [EPrint "Error: Could not install kagglehub.";
                     EPrint "Please install manually: pip install kagglehub";
                     ERet "download_lisa"])) /\
  ((main env w).1 = 0 \/ (main env w).1 = 1) /\
  ((main env w).1 = 0 <-> exists w', (__init__ env >> run env) w = (Ok tt, w')) /\
  ((main env w).1 = 1 ->
   exists e, ((__init__ env >> run env) w).1 = Raise e /\
             (is_Exception e = false \/ setup_error env e \/ probe_error env e)).
Proof.
  pose proof (main_exit_status env w) as Hexit.
  pose proof (program_raises_only env w) as Hraise.
  split; [apply download_gtsdb_raises_only|].
  split; [apply download_lisa_raises_only|].
  split.
  { intros e w1 k Hx Ht He. unfold bind.
    now rewrite (gtsdb_soft_failure env w e w1 Hx Ht He). }
  split.
  { intros e w0 w1 k Hx Hi Ht He. unfold bind.
    now rewrite (lisa_soft_failure env w e w0 w1 Hx Hi Ht He). }
  split.
  { intros w0 k Hx Hi. unfold bind.
    now rewrite (lisa_install_failure env w w0 Hx Hi). }
  destruct ((__init__ env >> run env) w) as [[[]|e] w1] eqn:Hrun; cbn [fst] in *.
  - split; [now left|]. split.
    + split; [intros _; now exists w1 | intros _; exact Hexit].
    + rewrite Hexit. discriminate.
  - split; [now right|]. split.
    + rewrite Hexit. split; [discriminate | intros [w' Hw']; discriminate].
    + intros _. exists e. split; [reflexivity | now apply Hraise].
Qed.

Lemma failures_contained_in_try_blocks_witness :
  exists_ (fs Scenario.empty_root) (target Scenario.offline GTSDB) = false /\
  is_Exception (Exn URLError "<urlopen error timed out>") = true /\
  bind (download_gtsdb Scenario.offline) (fun _ => download_lisa Scenario.offline)
       Scenario.empty_root =
    download_lisa Scenario.offline
      (log (gtsdb_try Scenario.offline (pjoin Scenario.raw "FullIJCNN2013.zip")
              (log Scenario.empty_root
                 [ECall "download_gtsdb";
                  EPrint "=== Downloading GTSDB Dataset ==="])).2
           [EPrint "Error downloading GTSDB: <urlopen error timed out>";
            EPrint "You can manually download from:";
            EPrint gtsdb_manual_url;
            ERet "download_gtsdb"]) /\
  (main Scenario.offline Scenario.empty_root).1 = 0.
Proof.
  split; [reflexivity|]. split; [reflexivity|]. split; [|reflexivity].
  exact (proj1 (proj2 (proj2
           (failures_contained_in_try_blocks Scenario.offline Scenario.empty_root)))
           (Exn URLError "<urlopen error timed out>") _
           (fun _ => download_lisa Scenario.offline)
           eq_refl eq_refl eq_refl).
Defined.

(** C3, as worded.  The hub client is installed but raises an error
    other than [ImportError] when imported: [install_kagglehub] only
    catches [ImportError], and [download_lisa] calls it outside its [try]
    block, so the error leaves the sync (and the exit status is 1). *)
Lemma sync_failures_contained_fails : ~ sync_failures_contained.
Proof.
  intros [Hsync _].
  specialize (Hsync Scenario.broken_client LISA Scenario.empty_root
                (Exn OtherError "invalid syntax") eq_refl).
  discriminate.
Qed.

(** The same run seen from the top: no interrupt, workspace and README
    in place, and the exit status is 1. *)
Lemma broken_client_exit_status :
  (main Scenario.broken_client Scenario.empty_root).1 = 1 /\
  ((__init__ Scenario.broken_client >> run Scenario.broken_client)
     Scenario.empty_root).1 = Raise (Exn OtherError "invalid syntax") /\
  is_Exception (Exn OtherError "invalid syntax") = true.
Proof. repeat split. Qed.

(** * Further properties of the script *)

(** ** [download_file] *)

(** X1. A request that fails makes [download_file] raise the very same
    exception with the filesystem untouched; an [Exception] is reported
    by a "Download failed" line first, a user interrupt is not. *)
Theorem download_file_reraises env w url destination expected_hash e :
  urlopen env url = HttpFail e ->
  download_file env url destination expected_hash w =
    (Raise e,
     log w ([ECall "download_file";
             EPrint ("Downloading " +:+ url +:+ "...");
             ENet url]
            ++ (if is_Exception e
                then [EPrint ("Download failed: " +:+ exn_msg e)]
                else []))).
Proof.
  intros Hu. unfold download_file. msimpl. unfold urlretrieve. rewrite Hu.
  msimpl. destruct (is_Exception e); msimpl; now rewrite !log_log.
Qed.

Lemma download_file_reraises_witness :
  urlopen Scenario.offline gtsdb_url
    = HttpFail (Exn URLError "<urlopen error timed out>") /\
  (download_file Scenario.offline gtsdb_url
     (pjoin Scenario.raw "FullIJCNN2013.zip") None Scenario.empty_root).1
    = Raise (Exn URLError "<urlopen error timed out>").
Proof.
  split; [reflexivity|].
  now rewrite (download_file_reraises Scenario.offline Scenario.empty_root
                 gtsdb_url (pjoin Scenario.raw "FullIJCNN2013.zip") None _ eq_refl).
Defined.

Lemma write_file_ok p data m :
  is_dir m (parent p) = true -> is_dir m p = false ->
  write_file p data m = inr (<[p := File data]> m).
Proof.
  intros Hpar Hp. unfold write_file. rewrite (is_dir_stat _ _ Hpar).
  unfold is_dir in Hp. now destruct (stat m p) as [[|d]|].
Qed.

Lemma urlretrieve_body env w url destination data cut :
  urlopen env url = HttpBody data cut ->
  is_dir (fs w) (parent destination) = true ->
  is_dir (fs w) destination = false ->
  urlretrieve env url destination w =
    (match cut with Some e => Raise e | None => Ok tt end,
     log (with_node w destination (File data)) [ENet url]).
Proof.
  intros Hu Hpar Hd. unfold urlretrieve. rewrite Hu. msimpl.
  rewrite (write_file_ok _ data _ Hpar Hd). msimpl. now destruct cut.
Qed.

(** X2. A transfer that is cut short leaves the bytes received so far in
    the destination file (replacing what was there), and [download_file]
    raises the transfer's exception; nothing is verified. *)
Theorem download_file_keeps_partial_file env w url destination expected_hash
    data e :
  urlopen env url = HttpBody data (Some e) ->
  is_dir (fs w) (parent destination) = true ->
  is_dir (fs w) destination = false ->
  download_file env url destination expected_hash w =
    (Raise e,
     log (with_node w destination (File data))
         ([ECall "download_file";
           EPrint ("Downloading " +:+ url +:+ "...");
           ENet url]
          ++ (if is_Exception e
              then [EPrint ("Download failed: " +:+ exn_msg e)]
              else []))).
Proof.
  intros Hu Hpar Hd. unfold download_file. msimpl.
  erewrite urlretrieve_body; [| exact Hu | exact Hpar | exact Hd].
  msimpl. destruct (is_Exception e); msimpl;
    unfold with_node, log; cbn [fs kagglehub_loaded trace];
    now rewrite <- !app_assoc.
Qed.

Lemma download_file_keeps_partial_file_witness :
  urlopen Scenario.cut_short "https://example.org/abc"
    = HttpBody (bytes_of_string "ab")
        (Some (Exn OtherError "retrieval incomplete")) /\
  is_dir (fs Scenario.with_abc) (parent (pjoin Scenario.raw "abc.bin")) = true /\
  is_dir (fs Scenario.with_abc) (pjoin Scenario.raw "abc.bin") = false /\
  (download_file Scenario.cut_short "https://example.org/abc"
     (pjoin Scenario.raw "abc.bin") (Some Scenario.abc_digest)
     Scenario.with_abc).1 = Raise (Exn OtherError "retrieval incomplete") /\
  fs (download_file Scenario.cut_short "https://example.org/abc"
        (pjoin Scenario.raw "abc.bin") (Some Scenario.abc_digest)
        Scenario.with_abc).2 !! pjoin Scenario.raw "abc.bin"
    = Some (File (bytes_of_string "ab")).
Proof.
  split; [reflexivity|]. split; [reflexivity|]. split; [reflexivity|].
  rewrite (download_file_keeps_partial_file Scenario.cut_short Scenario.with_abc
             "https://example.org/abc" (pjoin Scenario.raw "abc.bin")
             (Some Scenario.abc_digest) _ _ eq_refl eq_refl eq_refl).
  split; reflexivity.
Defined.

(** X3. Without an expected hash (none, or the empty string) a completed
    transfer makes [download_file] return normally with the served bytes
    in the destination file, whatever file was there before; no other
    path changes and no hash is computed. *)
Theorem download_file_overwrites env w url destination expected_hash data :
  truthy expected_hash = false ->
  urlopen env url = HttpBody data None ->
  is_dir (fs w) (parent destination) = true ->
  is_dir (fs w) destination = false ->
  download_file env url destination expected_hash w =
    (Ok tt,
     log (with_node w destination (File data))
         [ECall "download_file";
          EPrint ("Downloading " +:+ url +:+ "...");
          ENet url;
          EPrint ("Downloaded to " +:+ str destination);
          ERet "download_file"]).
Proof.
  intros Ht Hu Hpar Hd. unfold download_file. rewrite Ht. msimpl.
  erewrite urlretrieve_body; [| exact Hu | exact Hpar | exact Hd].
  msimpl. unfold with_node, log; cbn [fs kagglehub_loaded trace].
  now rewrite <- !app_assoc.
Qed.

Lemma download_file_overwrites_witness :
  truthy (Some "") = false /\
  urlopen Scenario.serving_zip gtsdb_url = HttpBody Scenario.archive None /\
  is_dir (fs Scenario.with_abc) (parent (pjoin Scenario.raw "abc.bin")) = true /\
  is_dir (fs Scenario.with_abc) (pjoin Scenario.raw "abc.bin") = false /\
  fs Scenario.with_abc !! pjoin Scenario.raw "abc.bin"
    = Some (File (bytes_of_string "abc")) /\
  fs (download_file Scenario.serving_zip gtsdb_url
        (pjoin Scenario.raw "abc.bin") (Some "") Scenario.with_abc).2
    !! pjoin Scenario.raw "abc.bin" = Some (File Scenario.archive).
Proof.
  split; [reflexivity|]. split; [reflexivity|]. split; [reflexivity|].
  split; [reflexivity|]. split; [reflexivity|].
  rewrite (download_file_overwrites Scenario.serving_zip Scenario.with_abc
             gtsdb_url (pjoin Scenario.raw "abc.bin") (Some "") _
             eq_refl eq_refl eq_refl eq_refl).
  reflexivity.
Defined.

(** ** [verify_hash] *)

(** X4. [verify_hash] on a path that is not a regular file raises
    ([FileNotFoundError] for a missing path, [IsADirectoryError] for a
    directory) instead of answering, and changes nothing. *)
Theorem verify_hash_needs_regular_file w filepath expected_hash :
  (stat (fs w) filepath = None ->
   verify_hash filepath expected_hash w =
     (Raise (Exn FileNotFoundError (str filepath)), log w [ECall "verify_hash"])) /\
  (stat (fs w) filepath = Some Dir ->
   verify_hash filepath expected_hash w =
     (Raise (Exn IsADirectoryError (str filepath)), log w [ECall "verify_hash"])).
Proof.
  split; intros H; unfold verify_hash, read_file; msimpl; now rewrite H.
Qed.

Lemma verify_hash_needs_regular_file_witness :
  stat (fs Scenario.empty_root) (pjoin Scenario.raw "abc.bin") = None /\
  stat (fs Scenario.empty_root) Scenario.raw = Some Dir /\
  (verify_hash (pjoin Scenario.raw "abc.bin") Scenario.abc_digest
     Scenario.empty_root).1
    = Raise (Exn FileNotFoundError "/repo/data/raw/abc.bin") /\
  (verify_hash Scenario.raw Scenario.abc_digest Scenario.empty_root).1
    = Raise (Exn IsADirectoryError "/repo/data/raw").
Proof.
  split; [reflexivity|]. split; [reflexivity|]. split.
  - now rewrite (proj1 (verify_hash_needs_regular_file Scenario.empty_root
                          (pjoin Scenario.raw "abc.bin") Scenario.abc_digest)
                   eq_refl).
  - now rewrite (proj2 (verify_hash_needs_regular_file Scenario.empty_root
                          Scenario.raw Scenario.abc_digest) eq_refl).
Defined.

(** X5. The comparison is between strings: an expected hash that is not
    64 characters long, or that has a character other than a digit or a
    lower-case [a]-[f] (an upper-case digest, say), is never accepted. *)
Theorem verify_hash_rejects_malformed w filepath data expected_hash :
  stat (fs w) filepath = Some (File data) ->
  String.length expected_hash <> 64%nat \/ lower_hex expected_hash = false ->
  verify_hash filepath expected_hash w =
    (Ok false, log w [ECall "verify_hash"; ERet "verify_hash"]).
Proof.
  intros Hs Hbad. rewrite (verify_hash_run w filepath data expected_hash Hs).
  destruct (String.eqb_spec (SHA256.sha256_hex data) expected_hash) as [<-|];
    [|reflexivity].
  exfalso. destruct Hbad as [Hl|Hh].
  - apply Hl, SHA256_facts.hexdigest_length, SHA256_facts.update_chain.
    reflexivity.
  - unfold SHA256.sha256_hex, SHA256.hexdigest in Hh.
    now rewrite SHA256_facts.hex_of_bytes_lower in Hh.
Qed.

Lemma verify_hash_rejects_malformed_witness :
  stat (fs Scenario.with_abc) (pjoin Scenario.raw "abc.bin")
    = Some (File (bytes_of_string "abc")) /\
  lower_hex
    "BA7816BF8F01CFEA414140DE5DAE2223B00361A396177A9CB410FF61F20015AD" = false /\
  (verify_hash (pjoin Scenario.raw "abc.bin")
     "BA7816BF8F01CFEA414140DE5DAE2223B00361A396177A9CB410FF61F20015AD"
     Scenario.with_abc).1 = Ok false.
Proof.
  split; [reflexivity|]. split; [reflexivity|].
  now rewrite (verify_hash_rejects_malformed Scenario.with_abc
                 (pjoin Scenario.raw "abc.bin") (bytes_of_string "abc")
                 "BA7816BF8F01CFEA414140DE5DAE2223B00361A396177A9CB410FF61F20015AD"
                 eq_refl (or_intror eq_refl)).
Defined.

(** ** [install_kagglehub] *)

(** X6. When the hub client can be imported (it is loaded already, or the
    first import succeeds), [install_kagglehub] answers [True] at once:
    no installer is run and the filesystem is untouched. *)
Theorem install_kagglehub_when_available env w :
  kagglehub_loaded w = true \/ import_outcome env ImportProbe = None ->
  install_kagglehub env w =
    (Ok true,
     mkWorld (fs w) true
       (trace w ++ ECall "install_kagglehub"
          :: (if kagglehub_loaded w then [] else [EImport ImportProbe])
          ++ [ERet "install_kagglehub"])).
Proof.
  intros H. unfold install_kagglehub, import_kagglehub. msimpl.
  destruct (kagglehub_loaded w) eqn:Hl; msimpl.
  - unfold log. cbn [fs kagglehub_loaded trace]. rewrite Hl.
    now rewrite <- !app_assoc.
  - destruct H as [H|H]; [discriminate|]. rewrite H. msimpl.
    unfold log. cbn [fs kagglehub_loaded trace]. now rewrite <- !app_assoc.
Qed.

Lemma install_kagglehub_when_available_witness :
  kagglehub_loaded (mkWorld (fs Scenario.empty_root) true []) = true /\
  install_kagglehub Scenario.offline (mkWorld (fs Scenario.empty_root) true []) =
    (Ok true,
     mkWorld (fs Scenario.empty_root) true
       [ECall "install_kagglehub"; ERet "install_kagglehub"]).
Proof.
  split; [reflexivity|].
  exact (install_kagglehub_when_available Scenario.offline
           (mkWorld (fs Scenario.empty_root) true []) (or_introl eq_refl)).
Defined.

(** X7. When the import fails with [ImportError] and [pipx] succeeds,
    [install_kagglehub] answers [True] without importing the client
    again and without running [pip]: the client is still not loaded. *)
Theorem install_kagglehub_trusts_pipx env w e m1 :
  kagglehub_loaded w = false ->
  import_outcome env ImportProbe = Some e ->
  is_ImportError e = true ->
  check_call_outcome env pipx_argv (fs w) = (None, m1) ->
  install_kagglehub env w =
    (Ok true,
     mkWorld m1 false
       (trace w ++ [ECall "install_kagglehub";
                    EImport ImportProbe;
                    EPrint "kagglehub not found. Installing via pipx...";
                    EProc pipx_argv;
                    ERet "install_kagglehub"])).
Proof.
  intros Hl Hi He Hc. unfold install_kagglehub, import_kagglehub, check_call.
  msimpl. rewrite Hl. rewrite Hi. msimpl. rewrite He. msimpl.
  fold pipx_argv. rewrite Hc. msimpl.
  unfold log. cbn [fs kagglehub_loaded trace]. now rewrite <- !app_assoc.
Qed.

Lemma install_kagglehub_trusts_pipx_witness :
  kagglehub_loaded Scenario.empty_root = false /\
  is_ImportError (Exn ImportError "No module named 'kagglehub'") = true /\
  (install_kagglehub Scenario.pipx_works Scenario.empty_root).1 = Ok true /\
  kagglehub_loaded (install_kagglehub Scenario.pipx_works Scenario.empty_root).2
    = false.
Proof.
  split; [reflexivity|]. split; [reflexivity|].
  rewrite (install_kagglehub_trusts_pipx Scenario.pipx_works Scenario.empty_root
             _ _ eq_refl eq_refl eq_refl eq_refl).
  split; reflexivity.
Defined.

(** X8. [install_kagglehub] answers [False] only after both installers
    were run, [pipx] first and [pip] second, and the manual instructions
    are the last thing it prints. *)
Theorem install_kagglehub_false_after_both env w :
  (install_kagglehub env w).1 = Ok false ->
  exists t1 t2 t3,
    trace (install_kagglehub env w).2 =
      trace w ++ t1 ++ [EProc pipx_argv] ++ t2 ++ [EProc (pip_argv env)] ++ t3
        ++ [EPrint "Please install manually:";
            EPrint "pipx install kagglehub --include-deps";
            EPrint "or: pip install kagglehub --break-system-packages";
            ERet "install_kagglehub"].
Proof.
  unfold install_kagglehub, import_kagglehub, check_call. msimpl.
  fold pipx_argv. fold (pip_argv env).
  destruct (kagglehub_loaded w) eqn:Hl; msimpl; [discriminate|].
  destruct (import_outcome env ImportProbe) as [e|]; msimpl; [|discriminate].
  destruct (is_ImportError e); msimpl; [|discriminate].
  destruct (check_call_outcome env pipx_argv (fs w)) as [[e1|] m1]; msimpl;
    [|discriminate].
  destruct (is_Exception e1); msimpl; [|discriminate].
  destruct (check_call_outcome env (pip_argv env) m1) as [[e2|] m2]; msimpl.
  - destruct (is_Exception e2); msimpl; [|discriminate]. intros _.
    exists [ECall "install_kagglehub"; EImport ImportProbe;
            EPrint "kagglehub not found. Installing via pipx..."],
           [EPrint ("pipx install failed: " +:+ exn_msg e1);
            EPrint "Trying pip with --break-system-packages..."],
           [EPrint ("Failed to install kagglehub: " +:+ exn_msg e2)].
    rewrite <- !app_assoc. reflexivity.
  - destruct (import_outcome env ImportAfterPip) as [e3|]; msimpl; [|discriminate].
    destruct (is_Exception e3); msimpl; [|discriminate]. intros _.
    exists [ECall "install_kagglehub"; EImport ImportProbe;
            EPrint "kagglehub not found. Installing via pipx..."],
           [EPrint ("pipx install failed: " +:+ exn_msg e1);
            EPrint "Trying pip with --break-system-packages..."],
           [EImport ImportAfterPip;
            EPrint ("Failed to install kagglehub: " +:+ exn_msg e3)].
    rewrite <- !app_assoc. reflexivity.
Qed.

Lemma install_kagglehub_false_after_both_witness :
  (install_kagglehub Scenario.offline Scenario.empty_root).1 = Ok false /\
  exists t1 t2 t3,
    trace (install_kagglehub Scenario.offline Scenario.empty_root).2 =
      trace Scenario.empty_root ++ t1 ++ [EProc pipx_argv] ++ t2
        ++ [EProc (pip_argv Scenario.offline)] ++ t3
        ++ [EPrint "Please install manually:";
            EPrint "pipx install kagglehub --include-deps";
            EPrint "or: pip install kagglehub --break-system-packages";
            ERet "install_kagglehub"].
Proof.
  split; [reflexivity|].
  exact (install_kagglehub_false_after_both Scenario.offline
           Scenario.empty_root eq_refl).
Defined.

(** ** The workspace: [__init__] *)

Lemma makedirs_from_preserves rest : forall base m m',
  makedirs_from base rest m = inr m' ->
  forall p n, m !! p = Some n -> m' !! p = Some n.
Proof.
  induction rest as [|c rest IH]; intros base m m' Hmk p n Hp.
  - now injection Hmk as <-.
  - cbn [makedirs_from] in Hmk.
    destruct (m !! pjoin base c) as [[|d]|] eqn:Hq; [| discriminate |].
    + exact (IH _ _ _ Hmk p n Hp).
    + apply (IH _ _ _ Hmk p n). rewrite lookup_insert_ne; [exact Hp|].
      intros Heq. rewrite <- Heq in Hp. congruence.
Qed.

Lemma makedirs_from_present rest : forall base m,
  (forall q, q <> [] -> q `prefix_of` rest -> m !! (base ++ q) = Some Dir) ->
  makedirs_from base rest m = inr m.
Proof.
  induction rest as [|c rest IH]; intros base m Hall; [reflexivity|].
  cbn [makedirs_from]. unfold pjoin.
  rewrite (Hall [c]); [| discriminate | now apply (prefix_cons c [] rest), prefix_nil].
  apply IH. intros q Hq Hpre. rewrite <- app_assoc. cbn [app].
  apply Hall; [discriminate | now apply prefix_cons].
Qed.

(** X9. When [__init__] returns, the raw-data root is a directory, and
    every file and directory that existed before is still there,
    unchanged: creating the workspace never deletes or overwrites. *)
Theorem init_keeps_existing_entries env w w' :
  __init__ env w = (Ok tt, w') ->
  is_dir (fs w') (data_dir env) = true /\
  forall p n, fs w !! p = Some n -> fs w' !! p = Some n.
Proof.
  intros H. split; [exact (init_creates_root env w w' H)|].
  revert H. unfold __init__. msimpl.
  destruct (makedirs (data_dir env) (fs w)) as [e|m'] eqn:Hmk; msimpl;
    [discriminate|].
  intros [= <-]. cbn [fs]. exact (makedirs_from_preserves _ _ _ _ Hmk).
Qed.

Lemma init_keeps_existing_entries_witness :
  __init__ Scenario.offline (mkWorld ∅ false []) =
    (Ok tt, (__init__ Scenario.offline (mkWorld ∅ false [])).2) /\
  is_dir (fs (__init__ Scenario.offline (mkWorld ∅ false [])).2)
         (data_dir Scenario.offline) = true.
Proof.
  split; [reflexivity|].
  exact (proj1 (init_keeps_existing_entries Scenario.offline
                  (mkWorld ∅ false []) _ eq_refl)).
Defined.

(** X10. When the raw-data root and the directories above it are there
    already, [__init__] changes nothing. *)
Theorem init_noop_when_present env w :
  (forall q, q <> [] -> q `prefix_of` data_dir env -> fs w !! q = Some Dir) ->
  __init__ env w = (Ok tt, log w [ECall "__init__"; ERet "__init__"]).
Proof.
  intros Hall. unfold __init__. msimpl. unfold makedirs.
  rewrite (makedirs_from_present (data_dir env) [] (fs w) Hall). msimpl.
  unfold log. cbn [fs kagglehub_loaded trace]. now rewrite <- app_assoc.
Qed.

Lemma init_noop_when_present_witness :
  (forall q, q <> [] -> q `prefix_of` data_dir Scenario.offline ->
             fs Scenario.empty_root !! q = Some Dir) /\
  __init__ Scenario.offline Scenario.empty_root =
    (Ok tt, log Scenario.empty_root [ECall "__init__"; ERet "__init__"]).
Proof.
  assert (H : forall q, q <> [] -> q `prefix_of` data_dir Scenario.offline ->
                        fs Scenario.empty_root !! q = Some Dir).
  { intros q Hq [k Hk]. change (data_dir Scenario.offline)
      with ["repo"; "data"; "raw"] in Hk.
    destruct q as [|a [|b [|c [|d q]]]]; try congruence;
      cbn [app] in Hk; injection Hk as <-; intros; subst; try discriminate;
      reflexivity. }
  split; [exact H | exact (init_noop_when_present _ _ H)].
Defined.

(** ** Extraction and copying *)


Lemma extract_archive_dispatch_aux env archive_path extract_to w :
  (lower (suffix archive_path) = ".zip" ->
   extract_archive env archive_path extract_to w =
     extract_with (zip_extractall env archive_path extract_to)
                  archive_path extract_to w) /\
  (lower (suffix archive_path) ∈ [".tar"; ".gz"; ".tgz"] ->
   extract_archive env archive_path extract_to w =
     extract_with (tar_extractall env archive_path extract_to)
                  archive_path extract_to w).
Proof.
  unfold extract_archive, extract_with. split.
  - intros ->. reflexivity.
  - intros Hin. rewrite (tar_suffix_not_zip _ Hin).
    now rewrite (bool_decide_eq_true_2 _ Hin).
Qed.



(** X12. On an archive with a supported extension that is missing, is a
    directory, or cannot be decoded, [extract_archive] raises an
    [Exception] right after its first progress message: the filesystem is
    untouched and "Extracted to" is not printed. *)
Theorem extract_archive_unreadable env archive_path extract_to w :
  lower (suffix archive_path) ∈ [".zip"; ".tar"; ".gz"; ".tgz"] ->
  (forall data, stat (fs w) archive_path = Some (File data) ->
     (if String.eqb (lower (suffix archive_path)) ".zip"
      then zip_members env data else tar_members env data) = None) ->
  exists e,
    is_Exception e = true /\
    extract_archive env archive_path extract_to w =
      (Raise e, log w [ECall "extract_archive";
                       EPrint ("Extracting " +:+ str archive_path +:+ "...")]).
Proof.
  intros Hin Hbad. unfold extract_archive.
  destruct (String.eqb _ ".zip") eqn:Hz.
  - unfold zip_extractall, read_file. msimpl.
    destruct (stat (fs w) archive_path) as [[|data]|] eqn:Hs; msimpl.
    + eexists. split; [|now rewrite log_log]. reflexivity.
    + rewrite (Hbad data eq_refl). msimpl.
      eexists. split; [|now rewrite log_log]. reflexivity.
    + eexists. split; [|now rewrite log_log]. reflexivity.
  - rewrite bool_decide_eq_true_2.
    2:{ apply elem_of_cons in Hin as [Heq|Hin]; [|exact Hin].
        rewrite Heq in Hz. discriminate. }
    unfold tar_extractall, read_file. msimpl.
    destruct (stat (fs w) archive_path) as [[|data]|] eqn:Hs; msimpl.
    + eexists. split; [|now rewrite log_log]. reflexivity.
    + rewrite (Hbad data eq_refl). msimpl.
      eexists. split; [|now rewrite log_log]. reflexivity.
    + eexists. split; [|now rewrite log_log]. reflexivity.
Qed.

Lemma extract_archive_unreadable_witness :
  (lower (suffix (pjoin Scenario.raw "FullIJCNN2013.zip"))
     ∈ [".zip"; ".tar"; ".gz"; ".tgz"]) /\
  exists e,
    is_Exception e = true /\
    extract_archive Scenario.offline (pjoin Scenario.raw "FullIJCNN2013.zip")
      Scenario.raw Scenario.empty_root =
      (Raise e, log Scenario.empty_root
                  [ECall "extract_archive";
                   EPrint "Extracting /repo/data/raw/FullIJCNN2013.zip..."]).
Proof.
  assert (Hin : lower (suffix (pjoin Scenario.raw "FullIJCNN2013.zip"))
                  ∈ [".zip"; ".tar"; ".gz"; ".tgz"]).
  { apply (bool_decide_unpack _). vm_compute. exact I. }
  split; [exact Hin|].
  apply (extract_archive_unreadable Scenario.offline
           (pjoin Scenario.raw "FullIJCNN2013.zip") Scenario.raw
           Scenario.empty_root Hin).
  intros data Hd. discriminate.
Defined.

Lemma rfind_dot_none s : forall i,
  "."%char ∉ list_ascii_of_string s -> rfind_dot s i = None.
Proof.
  induction s as [|c s IH]; intros i Hno; [reflexivity|].
  cbn [rfind_dot list_ascii_of_string] in *.
  rewrite IH by (intros Hin; apply Hno; now apply list_elem_of_further).
  destruct (Ascii.eqb_spec c "."%char) as [->|_]; [|reflexivity].
  exfalso. apply Hno, list_elem_of_here.
Qed.

(** X13. A file name without any dot has no extension, so
    [extract_archive] refuses it as an unsupported format (with an empty
    extension in the message) before reading anything. *)
Theorem extract_archive_refuses_no_extension env archive_path extract_to w :
  "."%char ∉ list_ascii_of_string (name archive_path) ->
  extract_archive env archive_path extract_to w =
    (Raise (Exn ValueError "Unsupported archive format: "),
     log w [ECall "extract_archive";
            EPrint ("Extracting " +:+ str archive_path +:+ "...")]).
Proof.
  intros Hno.
  assert (Hs : suffix archive_path = "").
  { unfold suffix. now rewrite (rfind_dot_none _ 0 Hno). }
  unfold extract_archive. rewrite Hs. msimpl. now rewrite log_log.
Qed.

Lemma extract_archive_refuses_no_extension_witness :
  ("."%char ∉ list_ascii_of_string (name (pjoin Scenario.raw "dataset"))) /\
  (extract_archive Scenario.serving_zip (pjoin Scenario.raw "dataset")
     Scenario.raw Scenario.empty_root).1
    = Raise (Exn ValueError "Unsupported archive format: ").
Proof.
  assert (H : "."%char ∉ list_ascii_of_string (name (pjoin Scenario.raw "dataset"))).
  { apply (bool_decide_unpack _). vm_compute. exact I. }
  split; [exact H|].
  now rewrite (extract_archive_refuses_no_extension Scenario.serving_zip
                 (pjoin Scenario.raw "dataset") Scenario.raw
                 Scenario.empty_root H).
Defined.

(** ** [download_lisa] *)


Lemma install_kagglehub_available_run env w :
  kagglehub_loaded w = true \/ import_outcome env ImportProbe = None ->
  install_kagglehub env w =
    (Ok true,
     mkWorld (fs w) true
       (trace w ++ ECall "install_kagglehub"
          :: (if kagglehub_loaded w then [] else [EImport ImportProbe])
          ++ [ERet "install_kagglehub"])).
Proof.
  intros H. unfold install_kagglehub, import_kagglehub. msimpl.
  destruct (kagglehub_loaded w) eqn:Hl; msimpl.
  - unfold log. cbn [fs kagglehub_loaded trace]. rewrite Hl.
    now rewrite <- !app_assoc.
  - destruct H as [H|H]; [discriminate|]. rewrite H. msimpl.
    unfold log. cbn [fs kagglehub_loaded trace]. now rewrite <- !app_assoc.
Qed.

(** The run of [download_lisa] up to the answer of the hub, when the
    client is available and the target does not exist yet. *)
Lemma download_lisa_reaches_hub env w :
  exists_ (fs w) (target env LISA) = false ->
  kagglehub_loaded w = true \/ import_outcome env ImportProbe = None ->
  download_lisa env w =
    (let* r :=
       try_except
         (let r := dataset_download_outcome env lisa_id (fs w) in
          match r.1 with
          | inl e => raise e
          | inr downloaded_path =>
              print ("Dataset downloaded to: " +:+ str downloaded_path) >>
              if exists_ r.2 downloaded_path then
                (if is_dir r.2 downloaded_path
                 then fs_op (copytree downloaded_path (target env LISA))
                 else extract_archive env downloaded_path (target env LISA)) >>
                print "LISA dataset setup completed!"
              else
                print ("Downloaded path " +:+ str downloaded_path +:+ " not found.")
          end)
         is_Exception lisa_except in
     emit (ERet "download_lisa") >> ret r)
      (mkWorld (dataset_download_outcome env lisa_id (fs w)).2 true
         (trace w ++
          [ECall "download_lisa";
           EPrint "=== Downloading LISA Dataset from Kaggle ===";
           ECall "install_kagglehub"]
          ++ (if kagglehub_loaded w then [] else [EImport ImportProbe])
          ++ [ERet "install_kagglehub";
              EPrint "Downloading LISA traffic light dataset from Kaggle...";
              EPrint "This may take several minutes depending on your connection.";
              EHub lisa_id])).
Proof.
  intros Hx Hav. unfold download_lisa. msimpl.
  unfold target in Hx. cbn [dataset_name] in Hx. rewrite Hx. msimpl.
  erewrite install_kagglehub_available_run by exact Hav.
  cbn [negb fs kagglehub_loaded trace].
  unfold lisa_try, import_kagglehub, dataset_download, target. cbn [dataset_name].
  msimpl.
  destruct (dataset_download_outcome env lisa_id (fs w)) as [[e|dp] m1];
    msimpl; norm_trace; reflexivity.
Qed.


(** X15. When the path the hub answers with does not exist,
    [download_lisa] says so and returns normally: nothing is copied or
    extracted, and no manual fallback is printed. *)
Theorem download_lisa_missing_path env w downloaded_path m1 :
  exists_ (fs w) (target env LISA) = false ->
  kagglehub_loaded w = true \/ import_outcome env ImportProbe = None ->
  dataset_download_outcome env lisa_id (fs w) = (inr downloaded_path, m1) ->
  exists_ m1 downloaded_path = false ->
  download_lisa env w =
    (Ok tt,
     mkWorld m1 true
       (trace w ++
        [ECall "download_lisa";
         EPrint "=== Downloading LISA Dataset from Kaggle ===";
         ECall "install_kagglehub"]
        ++ (if kagglehub_loaded w then [] else [EImport ImportProbe])
        ++ [ERet "install_kagglehub";
            EPrint "Downloading LISA traffic light dataset from Kaggle...";
            EPrint "This may take several minutes depending on your connection.";
            EHub lisa_id;
            EPrint ("Dataset downloaded to: " +:+ str downloaded_path);
            EPrint ("Downloaded path " +:+ str downloaded_path +:+ " not found.");
            ERet "download_lisa"])).
Proof.
  intros Hx Hav Hhub Hmiss.
  rewrite (download_lisa_reaches_hub env w Hx Hav), Hhub. cbn [fst snd].
  rewrite Hmiss. msimpl. unfold log. cbn [fs kagglehub_loaded trace].
  norm_trace. reflexivity.
Qed.



Lemma download_lisa_missing_path_witness :
  exists_ (fs Scenario.empty_root) (target Scenario.hub_path_missing LISA)
    = false /\
  exists_ (fs Scenario.empty_root) ["cache"; "gone"] = false /\
  (download_lisa Scenario.hub_path_missing Scenario.empty_root).1 = Ok tt /\
  fs (download_lisa Scenario.hub_path_missing Scenario.empty_root).2
    = fs Scenario.empty_root.
Proof.
  split; [reflexivity|]. split; [reflexivity|].
  rewrite (download_lisa_missing_path Scenario.hub_path_missing
             Scenario.empty_root ["cache"; "gone"] (fs Scenario.empty_root)
             eq_refl (or_intror eq_refl) eq_refl eq_refl).
  split; reflexivity.
Defined.

(** ** [download_gtsdb] *)

Lemma name_pjoin p c : name (pjoin p c) = c.
Proof. unfold name, pjoin. apply last_last. Qed.

Lemma suffix_pjoin p c : suffix (pjoin p c) = suffix [c].
Proof. unfold suffix. now rewrite name_pjoin. Qed.

Lemma with_node_log w es p n : with_node (log w es) p n = log (with_node w p n) es.
Proof. reflexivity. Qed.

(** X16. When the bytes served for the direct dataset are not a zip
    archive, [download_gtsdb] reports the failure with the manual
    download address and returns normally; the downloaded file stays on
    disk as [FullIJCNN2013.zip] (nothing cleans it up) and [GTSDB] is
    not created. *)
Theorem download_gtsdb_keeps_undecodable_archive env w data :
  exists_ (fs w) (target env GTSDB) = false ->
  urlopen env gtsdb_url = HttpBody data None ->
  is_dir (fs w) (data_dir env) = true ->
  is_dir (fs w) (pjoin (data_dir env) "FullIJCNN2013.zip") = false ->
  zip_members env data = None ->
  download_gtsdb env w =
    (Ok tt,
     log (with_node w (pjoin (data_dir env) "FullIJCNN2013.zip") (File data))
       [ECall "download_gtsdb";
        EPrint "=== Downloading GTSDB Dataset ===";
        EPrint "Downloading GTSDB Full IJCNN 2013 dataset (~2.7GB)...";
        EPrint "This may take several minutes depending on your connection.";
        ECall "download_file";
        EPrint ("Downloading " +:+ gtsdb_url +:+ "...");
        ENet gtsdb_url;
        EPrint ("Downloaded to "
                +:+ str (pjoin (data_dir env) "FullIJCNN2013.zip"));
        ERet "download_file";
        ECall "extract_archive";
        EPrint ("Extracting "
                +:+ str (pjoin (data_dir env) "FullIJCNN2013.zip") +:+ "...");
        EPrint "Error downloading GTSDB: File is not a zip file";
        EPrint "You can manually download from:";
        EPrint gtsdb_manual_url;
        ERet "download_gtsdb"]).
Proof.
  intros Hx Hu Hroot Hfile Hbad. unfold download_gtsdb. msimpl.
  unfold target in Hx. cbn [dataset_name] in Hx. rewrite Hx. msimpl.
  unfold gtsdb_try, download_file. cbn [truthy]. msimpl.
  erewrite urlretrieve_body;
    [| exact Hu | now rewrite parent_pjoin | exact Hfile].
  msimpl.
  unfold extract_archive. rewrite suffix_pjoin.
  change (String.eqb (lower (suffix ["FullIJCNN2013.zip"])) ".zip") with true.
  unfold zip_extractall, read_file. msimpl. cbn [with_node fs].
  rewrite stat_pjoin, lookup_insert_eq. msimpl. rewrite Hbad. msimpl.
  cbn [is_Exception exn_cls]. unfold gtsdb_except. msimpl.
  cbn [exn_msg]. rewrite !with_node_log, !log_log. reflexivity.
Qed.

Lemma download_gtsdb_keeps_undecodable_archive_witness :
  exists_ (fs Scenario.empty_root) (target Scenario.serving_garbage GTSDB)
    = false /\
  zip_members Scenario.serving_garbage (bytes_of_string "<html>") = None /\
  (download_gtsdb Scenario.serving_garbage Scenario.empty_root).1 = Ok tt /\
  fs (download_gtsdb Scenario.serving_garbage Scenario.empty_root).2
    !! pjoin Scenario.raw "FullIJCNN2013.zip"
    = Some (File (bytes_of_string "<html>")).
Proof.
  split; [reflexivity|]. split; [reflexivity|].
  rewrite (download_gtsdb_keeps_undecodable_archive Scenario.serving_garbage
             Scenario.empty_root (bytes_of_string "<html>")
             eq_refl eq_refl eq_refl eq_refl eq_refl).
  split; reflexivity.
Defined.

(** X17. A user interrupt during the download leaves [download_gtsdb]
    as it is: neither [download_file] nor [download_gtsdb] reports it
    and no manual fallback is printed.  If it strikes before the body
    arrives nothing is written; if it strikes during the transfer the
    part of [FullIJCNN2013.zip] received so far stays on disk. *)
Theorem download_gtsdb_interrupt_passes env w e :
  exists_ (fs w) (target env GTSDB) = false ->
  is_Exception e = false ->
  (urlopen env gtsdb_url = HttpFail e ->
   download_gtsdb env w =
     (Raise e,
      log w [ECall "download_gtsdb";
             EPrint "=== Downloading GTSDB Dataset ===";
             EPrint "Downloading GTSDB Full IJCNN 2013 dataset (~2.7GB)...";
             EPrint "This may take several minutes depending on your connection.";
             ECall "download_file";
             EPrint ("Downloading " +:+ gtsdb_url +:+ "...");
             ENet gtsdb_url])) /\
  (forall data,
     urlopen env gtsdb_url = HttpBody data (Some e) ->
     is_dir (fs w) (data_dir env) = true ->
     is_dir (fs w) (pjoin (data_dir env) "FullIJCNN2013.zip") = false ->
     download_gtsdb env w =
       (Raise e,
        log (with_node w (pjoin (data_dir env) "FullIJCNN2013.zip") (File data))
          [ECall "download_gtsdb";
           EPrint "=== Downloading GTSDB Dataset ===";
           EPrint "Downloading GTSDB Full IJCNN 2013 dataset (~2.7GB)...";
           EPrint "This may take several minutes depending on your connection.";
           ECall "download_file";
           EPrint ("Downloading " +:+ gtsdb_url +:+ "...");
           ENet gtsdb_url])).
Proof.
  intros Hx He. unfold target in Hx. cbn [dataset_name] in Hx. split.
  - intros Hu. unfold download_gtsdb. msimpl. rewrite Hx. msimpl.
    unfold gtsdb_try, download_file, urlretrieve. rewrite Hu. msimpl.
    rewrite He. msimpl. rewrite He. now rewrite !log_log.
  - intros data Hu Hroot Hfile. unfold download_gtsdb. msimpl.
    rewrite Hx. msimpl.
    unfold gtsdb_try, download_file. msimpl.
    erewrite urlretrieve_body;
      [| exact Hu | now rewrite parent_pjoin | exact Hfile].
    msimpl. rewrite He. msimpl. rewrite He.
    now rewrite !with_node_log, !log_log.
Qed.

Lemma download_gtsdb_interrupt_passes_witness :
  exists_ (fs Scenario.empty_root) (target Scenario.interrupted GTSDB) = false /\
  is_Exception (Exn KeyboardInterrupt "") = false /\
  (download_gtsdb Scenario.interrupted Scenario.empty_root).1
    = Raise (Exn KeyboardInterrupt "") /\
  fs (download_gtsdb Scenario.interrupted Scenario.empty_root).2
    = fs Scenario.empty_root /\
  (download_gtsdb Scenario.interrupted_midway Scenario.empty_root).1
    = Raise (Exn KeyboardInterrupt "") /\
  fs (download_gtsdb Scenario.interrupted_midway Scenario.empty_root).2
    !! pjoin Scenario.raw "FullIJCNN2013.zip"
    = Some (File (bytes_of_string "ab")) /\
  (main Scenario.interrupted Scenario.empty_root).1 = 1.
Proof.
  split; [reflexivity|]. split; [reflexivity|].
  rewrite (proj1 (download_gtsdb_interrupt_passes Scenario.interrupted
                    Scenario.empty_root (Exn KeyboardInterrupt "")
                    eq_refl eq_refl) eq_refl).
  split; [reflexivity|]. split; [reflexivity|].
  rewrite (proj2 (download_gtsdb_interrupt_passes Scenario.interrupted_midway
                    Scenario.empty_root (Exn KeyboardInterrupt "")
                    eq_refl eq_refl)
             (bytes_of_string "ab") eq_refl eq_refl eq_refl).
  split; [reflexivity|]. split; reflexivity.
Defined.

Ltac reach_leaf :=
  cbv beta; unfold gtsdb_reach; cbn [external];
  first [discriminate | reflexivity | (intros _; reflexivity)].

Lemma download_gtsdb_reach env : emits gtsdb_reach (download_gtsdb env).
Proof.
  unfold download_gtsdb, gtsdb_try, gtsdb_except, download_file,
    extract_archive, verify_hash.
  cbn [truthy]. cbv zeta.
  repeat (emits_step reach_leaf).
Qed.

(** X18. Whatever happens, [download_gtsdb] reaches nothing outside the
    process but the fixed archive URL: no subprocess, no import, no hub
    call, no other address. *)
Theorem download_gtsdb_only_fetches_fixed_url env w :
  exists t,
    trace (download_gtsdb env w).2 = trace w ++ t /\
    forall e, e ∈ t -> external e = true -> e = ENet gtsdb_url.
Proof.
  destruct (download_gtsdb_reach env w) as (t & E & F).
  exists t. split; [exact E|]. intros e Hin.
  exact (proj1 (Forall_forall _ _) F e Hin).
Qed.

Ltac lisa_leaf :=
  cbv beta; unfold lisa_reach;
  first [exact I | reflexivity | (left; reflexivity) | (right; reflexivity)].

Lemma download_lisa_reach env : emits (lisa_reach env) (download_lisa env).
Proof.
  unfold download_lisa, install_kagglehub, lisa_try, lisa_except, extract_archive.
  cbv zeta.
  repeat (emits_step lisa_leaf).
Qed.

(** X19. Whatever happens, [download_lisa] never opens a network
    connection itself: outside the process it only imports the hub
    client, runs the two fixed installer command lines and asks the hub
    for the fixed dataset. *)
Theorem download_lisa_only_uses_hub env w :
  exists t,
    trace (download_lisa env w).2 = trace w ++ t /\
    forall e, e ∈ t ->
      match e with
      | ENet _ => False
      | EProc argv => argv = pipx_argv \/ argv = pip_argv env
      | EHub id => id = lisa_id
      | _ => True
      end.
Proof.
  destruct (download_lisa_reach env w) as (t & E & F).
  exists t. split; [exact E|]. intros e Hin.
  exact (proj1 (Forall_forall _ _) F e Hin).
Qed.

(** ** Failures before the downloads *)

Lemma makedirs_from_error rest : forall base m e,
  makedirs_from base rest m = inl e ->
  is_KeyboardInterrupt e = false /\ is_Exception e = true.
Proof.
  induction rest as [|c rest IH]; intros base m e H; [discriminate|].
  cbn [makedirs_from] in H.
  destruct (m !! pjoin base c) as [[|d]|]; [exact (IH _ _ _ H) | | exact (IH _ _ _ H)].
  injection H as <-. now destruct rest.
Qed.

Lemma write_file_error p data m e :
  write_file p data m = inl e ->
  is_KeyboardInterrupt e = false /\ is_Exception e = true.
Proof.
  unfold write_file. intros H.
  destruct (stat m (parent p)) as [[|?]|]; [| now injection H as <- ..].
  destruct (stat m p) as [[|?]|]; [now injection H as <- | discriminate..].
Qed.

(** X20. The workspace and the README are set up outside any [try]
    block: when the raw-data root cannot be created, or [README.md]
    cannot be written, the run prints the error and exits with status 1
    before either download is entered. *)
Theorem main_stops_on_setup_failure env w :
  (forall e,
     makedirs (data_dir env) (fs w) = inl e ->
     main env w =
       (1, log w [ECall "__init__"; EPrint ("Error: " +:+ exn_msg e)])) /\
  (forall m1 e,
     makedirs (data_dir env) (fs w) = inr m1 ->
     write_file (pjoin (data_dir env) "README.md")
       (bytes_of_string readme_content) m1 = inl e ->
     main env w =
       (1, mkWorld m1 (kagglehub_loaded w)
             (trace w ++ [ECall "__init__"; ERet "__init__"; ECall "run";
                          EPrint "Starting dataset download process...";
                          EPrint ("Data directory: " +:+ str (data_dir env));
                          ECall "create_readme";
                          EPrint ("Error: " +:+ exn_msg e)]))).
Proof.
  split.
  - intros e Hmk. destruct (makedirs_from_error _ _ _ _ Hmk) as [Hk He].
    unfold main, __init__. msimpl. rewrite Hmk. msimpl. rewrite Hk, He.
    msimpl. now rewrite log_log.
  - intros m1 e Hmk Hw. destruct (write_file_error _ _ _ _ Hw) as [Hk He].
    unfold main, __init__, run, create_readme. msimpl. rewrite Hmk. msimpl.
    rewrite Hw. msimpl. rewrite Hk, He. msimpl.
    unfold log. cbn [fs kagglehub_loaded trace]. norm_trace. reflexivity.
Qed.

Lemma main_stops_on_setup_failure_witness :
  makedirs (data_dir Scenario.offline) (fs Scenario.data_is_file)
    = inl (Exn NotADirectoryError "/repo/data") /\
  main Scenario.offline Scenario.data_is_file =
    (1, log Scenario.data_is_file
          [ECall "__init__"; EPrint "Error: /repo/data"]) /\
  write_file (pjoin (data_dir Scenario.offline) "README.md")
    (bytes_of_string readme_content) (fs Scenario.readme_is_dir)
    = inl (Exn IsADirectoryError "/repo/data/raw/README.md") /\
  (main Scenario.offline Scenario.readme_is_dir).1 = 1.
Proof.
  split; [reflexivity|]. split.
  - exact (proj1 (main_stops_on_setup_failure Scenario.offline
                    Scenario.data_is_file) _ eq_refl).
  - split; [reflexivity|].
    now rewrite (proj2 (main_stops_on_setup_failure Scenario.offline
                          Scenario.readme_is_dir)
                   (fs Scenario.readme_is_dir) _ eq_refl eq_refl).
Defined.
